(** * Ryzen Monitor GUI: the ctypes binding and the display refresh

    A shallow embedding of [ryzen_monitor_gui.py]: the records read from
    [libryzen_monitor.so], the [RyzenMonitorLib] wrapper (load, init,
    cleanup, get_system_info, read_data) and [RyzenMonitorGUI.update_data],
    which maps one snapshot onto the table, the labels and the four
    progress bars.

    Python floats are IEEE binary64 values and [c_float] fields binary32
    values; both are [spec_float]s and the arithmetic is the Standard
    Library's [SFdiv]/[SFmul] at precision 53.  The foreign library is a
    handle whose answers depend on the history of foreign calls, so that
    every statement below holds for every behaviour of the library. *)

From Stdlib Require Import ZArith QArith Qabs Lia Bool.
From Stdlib Require Import Ascii String DecimalString.
From Stdlib Require Import SpecFloat.
From stdpp Require Import base decidable option list strings functions gmap.

Local Open Scope string_scope.
Local Open Scope list_scope.
Local Open Scope Z_scope.

(** ** Python exceptions and outcomes *)

Inductive exn :=
  | AttributeError
  | ValueError
  | OverflowError
  | ZeroDivisionError.

Inductive result (A : Type) :=
  | Ok (a : A)
  | Raise (e : exn).
Arguments Ok {A} a.
Arguments Raise {A} e.

(** ** Floating point

    [py_float] is Python's float; [c_float] is what a ctypes [c_float]
    field stores.  Reading a field widens it to a Python float. *)

Module Float.

Definition py_float := spec_float.
Definition c_float := spec_float.

Definition prec64 : Z := 53.
Definition emax64 : Z := 1024.
Definition prec32 : Z := 24.
Definition emax32 : Z := 128.

(** [struct.field] on a [c_float] field: the same value as a double. *)
Definition get (x : c_float) : py_float :=
  match x with
  | S754_finite s m e => binary_round prec64 emax64 s m e
  | _ => x
  end.

Definition of_Z (n : Z) : py_float := binary_normalize prec64 emax64 n 0 false.

Definition is_nan (x : spec_float) : bool :=
  match x with S754_nan => true | _ => false end.


Definition is_zero (x : spec_float) : bool :=
  match x with S754_zero _ => true | _ => false end.

(** [x > y], [x <= y] and [x != y] on Python floats. *)
Definition gt (x y : py_float) : bool := SFltb y x.
Definition le (x y : py_float) : bool := SFleb x y.
Definition ne (x y : py_float) : bool := negb (SFeqb x y).

(** [x / y]: Python raises on a zero divisor instead of returning an
    infinity or a NaN. *)
Definition truediv (x y : py_float) : result py_float :=
  if is_zero y then Raise ZeroDivisionError
  else Ok (SFdiv prec64 emax64 x y).

Definition mul (x y : py_float) : py_float := SFmul prec64 emax64 x y.

(** [int(x)]: truncation toward zero; NaN and the infinities raise. *)
Definition to_int (x : py_float) : result Z :=
  match x with
  | S754_nan => Raise ValueError
  | S754_infinity _ => Raise OverflowError
  | S754_zero _ => Ok 0
  | S754_finite s m e =>
      let mag := Z.shiftl (Z.pos m) e in
      Ok (if s then - mag else mag)
  end.


Definition sign_bit (x : spec_float) : bool :=
  match x with
  | S754_zero s | S754_infinity s | S754_finite s _ _ => s
  | S754_nan => false
  end.

End Float.

(** ** Formatting: [f"{x:.Nf}"] and [f"{n}"] *)

Module Format.
Import Float.

Definition digits (n : Z) : string := NilZero.string_of_uint (N.to_uint (Z.to_N n)).

(** [f"{n}"] for a Python int. *)
Definition int (n : Z) : string := NilZero.string_of_int (Z.to_int n).

Fixpoint zeros (k : nat) : string :=
  match k with O => "" | S k' => String "0" (zeros k') end.

Definition zfill (width : nat) (s : string) : string :=
  zeros (width - String.length s)%nat +:+ s.

(** Nearest integer to [num / den], ties to the even one. *)
Definition round_half_even (num den : Z) : Z :=
  let q := num / den in
  let r := num mod den in
  match 2 * r ?= den with
  | Lt => q
  | Gt => q + 1
  | Eq => if Z.even q then q else q + 1
  end.

(** Nearest integer to [m * 2^e * 10^p], ties to even. *)
Definition scaled (p : nat) (m : positive) (e : Z) : Z :=
  let num := Z.pos m * 10 ^ Z.of_nat p in
  match e with
  | Z0 => num
  | Zpos k => num * 2 ^ Z.pos k
  | Zneg k => round_half_even num (Z.pos (2 ^ k))
  end.

Definition sign (s : bool) : string := if s then "-" else "".

Definition fixed_digits (p : nat) (q : Z) : string :=
  match p with
  | O => digits q
  | S _ => digits (q / 10 ^ Z.of_nat p) +:+ "." +:+ zfill p (digits (q mod 10 ^ Z.of_nat p))
  end.

(** [f"{x:.pf}"]: correctly rounded decimal with [p] fractional digits. *)
Definition fixed (p : nat) (x : py_float) : string :=
  match x with
  | S754_nan => "nan"
  | S754_infinity s => sign s +:+ "inf"
  | S754_zero s => sign s +:+ fixed_digits p 0
  | S754_finite s m e => sign s +:+ fixed_digits p (scaled p m e)
  end.

End Format.

(** ** The structures of the library header *)

Module CoreData.
Import Float.
Record t := mk {
  core_num : Z; frequency : c_float; power : c_float;
  voltage : c_float; temp : c_float; c0 : c_float;
  cc1 : c_float; cc6 : c_float; disabled : Z;
  sleeping : Z
}.
(** [CoreData()]: ctypes zero-fills a fresh structure. *)
Definition zero : t :=
  let z := S754_zero false in mk 0 z z z z z z z 0 0.
End CoreData.

Module SystemData.
Record t := mk {
  cpu_name : string; codename : string;
  smu_fw_ver : string; cores : Z; ccds : Z;
  ccxs : Z; cores_per_ccx : Z; if_ver : Z;
  enabled_cores_count : Z
}.
Definition zero : t := mk "" "" "" 0 0 0 0 0 0.
End SystemData.

Module ConstraintsData.
Import Float.
Record t := mk {
  peak_temp : c_float; soc_temp : c_float; gfx_temp : c_float;
  vid_value : c_float; vid_limit : c_float; ppt_value : c_float;
  ppt_limit : c_float; ppt_apu_value : c_float; ppt_apu_limit : c_float;
  tdc_value : c_float; tdc_limit : c_float; tdc_actual : c_float;
  tdc_soc_value : c_float; tdc_soc_limit : c_float;
  edc_value : c_float; edc_limit : c_float; edc_soc_value : c_float;
  edc_soc_limit : c_float; thm_value : c_float; thm_limit : c_float;
  thm_soc_value : c_float; thm_soc_limit : c_float;
  thm_gfx_value : c_float; thm_gfx_limit : c_float;
  fit_value : c_float; fit_limit : c_float
}.
Definition zero : t :=
  let z := S754_zero false in
  mk z z z z z z z z z z z z z z z z z z z z z z z z z z.
End ConstraintsData.

Module MemoryData.
Import Float.
Record t := mk {
  fclk_freq : c_float; fclk_freq_eff : c_float; uclk_freq : c_float;
  memclk_freq : c_float; v_vddm : c_float; v_vddp : c_float;
  v_vddg : c_float; v_vddg_iod : c_float; v_vddg_ccd : c_float;
  coupled_mode : Z
}.
Definition zero : t :=
  let z := S754_zero false in mk z z z z z z z z z 0.
End MemoryData.

Module PowerData.
Import Float.
Record t := mk {
  total_core_power : c_float; vddcr_soc_power : c_float;
  io_vddcr_soc_power : c_float; gmi2_vddg_power : c_float;
  roc_power : c_float; l3_logic_power : c_float; l3_vddm_power : c_float;
  vddio_mem_power : c_float; iod_vddio_mem_power : c_float;
  ddr_vddp_power : c_float; ddr_phy_power : c_float;
  vdd18_power : c_float; io_display_power : c_float;
  io_usb_power : c_float; socket_power : c_float;
  package_power : c_float; vddcr_cpu_power : c_float;
  soc_telemetry_voltage : c_float; soc_telemetry_current : c_float;
  soc_telemetry_power : c_float; cpu_telemetry_voltage : c_float;
  cpu_telemetry_current : c_float; cpu_telemetry_power : c_float
}.
Definition zero : t :=
  let z := S754_zero false in
  mk z z z z z z z z z z z z z z z z z z z z z z z.
End PowerData.

Module GraphicsData.
Import Float.
Record t := mk {
  gfx_voltage : c_float; roc_power : c_float; gfx_temp : c_float;
  gfx_freq : c_float; gfx_freq_eff : c_float; gfx_busy : c_float;
  gfx_edc_lim : c_float; gfx_edc_residency : c_float;
  display_count : c_float; fps : c_float; dgpu_power : c_float;
  dgpu_freq_target : c_float; dgpu_gfx_busy : c_float
}.
Definition zero : t :=
  let z := S754_zero false in mk z z z z z z z z z z z z z.
End GraphicsData.

Module CalculatedStats.
Import Float.
Record t := mk {
  peak_core_frequency : c_float; peak_core_temp : c_float;
  peak_core_voltage : c_float; avg_core_voltage : c_float;
  avg_core_cc6 : c_float; total_core_power : c_float;
  peak_core_voltage_smu : c_float; package_cc6 : c_float
}.
Definition zero : t :=
  let z := S754_zero false in mk z z z z z z z z.
End CalculatedStats.

(** ** The foreign library

    The four entry points of [libryzen_monitor.so].  The world is the
    history of foreign calls made so far; what an entry point returns and
    writes through its pointers may depend on all of it. *)

Inductive ffi_call :=
  | ryzen_init_call
  | ryzen_cleanup_call
  | ryzen_get_system_info_call
  | ryzen_read_data_call (max_cores : Z).

Abbreviation World := (list ffi_call).

#[global] Instance ffi_call_eq_dec : EqDecision ffi_call.
Proof. solve_decision. Defined.

(** What [ryzen_read_data] returns and leaves behind its pointers: the
    records it wrote at the start of the core buffer and the five
    aggregate structures. *)
Record ReadReply := {
  num_cores : Z;
  cores_out : list CoreData.t;
  constraints_out : ConstraintsData.t;
  memory_out : MemoryData.t;
  power_out : PowerData.t;
  graphics_out : GraphicsData.t;
  stats_out : CalculatedStats.t
}.

Record CDLL := {
  ryzen_init : World -> Z;
  ryzen_get_system_info : World -> Z * SystemData.t;
  ryzen_read_data : World -> Z -> ReadReply
}.

(** The six-tuple [read_data] returns: all [None], or all present. *)
Definition Reading : Type :=
  option (list CoreData.t) * option ConstraintsData.t * option MemoryData.t
  * option PowerData.t * option GraphicsData.t * option CalculatedStats.t.

Definition all_None : Reading := (None, None, None, None, None, None).

(** ** class RyzenMonitorLib *)

Module RyzenMonitorLib.

Record t := mk { lib : option CDLL; initialized : bool }.

(** [__init__] *)
Definition new : t := mk None false.

(** [load]: [env] is what [ctypes.CDLL(lib_path)] and the signature
    setup find: a handle, or an exception caught by the [except]. *)
Definition load (env : option CDLL) (self : t) : bool * t :=
  match env with
  | Some h => (true, mk (Some h) (initialized self))
  | None => (false, self)
  end.

Definition init (self : t) (w : World) : result bool * t * World :=
  match lib self with
  | None => (Raise AttributeError, self, w)
  | Some h =>
      if ryzen_init h w =? 0
      then (Ok true, mk (lib self) true, w ++ [ryzen_init_call])
      else (Ok false, self, w ++ [ryzen_init_call])
  end.

Definition cleanup (self : t) (w : World) : result unit * t * World :=
  if initialized self then
    match lib self with
    | None => (Raise AttributeError, self, w)
    | Some _ => (Ok tt, mk (lib self) false, w ++ [ryzen_cleanup_call])
    end
  else (Ok tt, self, w).

Definition get_system_info (self : t) (w : World)
  : result (option SystemData.t) * t * World :=
  if negb (initialized self) then (Ok None, self, w)
  else
    match lib self with
    | None => (Raise AttributeError, self, w)
    | Some h =>
        let '(rc, sysdata) := ryzen_get_system_info h w in
        (Ok (if rc =? 0 then Some sysdata else None), self,
         w ++ [ryzen_get_system_info_call])
    end.

(** [(CoreData * max_cores)()] after the call: [max_cores] records, the
    written ones first, the rest still zero. *)
Definition buffer (max_cores : Z) (written : list CoreData.t) : list CoreData.t :=
  resize (Z.to_nat max_cores) CoreData.zero written.

Definition read_data (self : t) (max_cores : Z) (w : World)
  : result Reading * t * World :=
  if negb (initialized self) then (Ok all_None, self, w)
  else if max_cores <? 0 then (Raise ValueError, self, w)
  else
    match lib self with
    | None => (Raise AttributeError, self, w)
    | Some h =>
        let reply := ryzen_read_data h w max_cores in
        let cores := buffer max_cores (cores_out reply) in
        let w' := w ++ [ryzen_read_data_call max_cores] in
        if 0 <? num_cores reply
        then (Ok (Some (take (Z.to_nat (num_cores reply)) cores),
                  Some (constraints_out reply), Some (memory_out reply),
                  Some (power_out reply), Some (graphics_out reply),
                  Some (stats_out reply)), self, w')
        else (Ok all_None, self, w')
    end.

(** The methods as the transitions of the reader's state machine. *)
Inductive method :=
  | Load (env : option CDLL)
  | Init
  | Cleanup
  | GetSystemInfo
  | ReadData (max_cores : Z).

Definition call (m : method) (self : t) (w : World) : t * World :=
  match m with
  | Load env => ((load env self).2, w)
  | Init => let '(_, s, w') := init self w in (s, w')
  | Cleanup => let '(_, s, w') := cleanup self w in (s, w')
  | GetSystemInfo => let '(_, s, w') := get_system_info self w in (s, w')
  | ReadData n => let '(_, s, w') := read_data self n w in (s, w')
  end.

End RyzenMonitorLib.

(** ** class RyzenMonitorGUI

    The widgets [update_data] writes to: the core table, the value labels
    and the four progress bars.  [init_ui] fixes the table at eight
    columns and leaves the bars at Qt's default range 0..100. *)

Module RyzenMonitorGUI.
Import Float.

Inductive Label :=
  | peak_freq_value | peak_temp_value | peak_volt_value | avg_volt_value
  | avg_cc6_value | total_core_power_value | smu_peak_volt_value
  | pkg_cc6_value
  | peak_temp_con_value | ppt_value | tdc_value | edc_value | thm_value
  | fclk_value | fclk_eff_value | uclk_value | memclk_value | coupled_value
  | socket_power_value | core_power_value | soc_power_value
  | gfx_clk_value | gfx_temp_value.

Inductive Bar := ppt_bar | tdc_bar | edc_bar | thm_bar.

#[global] Instance Label_eq_dec : EqDecision Label.
Proof. solve_decision. Defined.
#[global] Instance Bar_eq_dec : EqDecision Bar.
Proof. solve_decision. Defined.

(** QTableWidget: a row count and the items set so far, by (row, column). *)
Record QTableWidget := { rowCount : nat; items : gmap (nat * nat) string }.

Definition columnCount : nat := 8.

Definition QTableWidget_setRowCount (n : nat) (tb : QTableWidget) : QTableWidget :=
  {| rowCount := n;
     items := filter (λ kv, (kv.1.1 < n)%nat) (items tb) |}.

(** Qt ignores an item placed outside the table. *)
Definition QTableWidget_setItem (r c : nat) (s : string) (tb : QTableWidget)
  : QTableWidget :=
  if bool_decide (r < rowCount tb)%nat && bool_decide (c < columnCount)%nat
  then {| rowCount := rowCount tb; items := <[(r, c) := s]> (items tb) |}
  else tb.

(** QProgressBar.setValue through the binding: an argument that does not
    fit a C int raises, a value outside the range 0..100 is ignored. *)
Definition QProgressBar_minimum : Z := 0.
Definition QProgressBar_maximum : Z := 100.

Definition QProgressBar_setValue (v : Z) (current : Z) : result Z :=
  if (v <? - 2 ^ 31) || (2 ^ 31 - 1 <? v) then Raise OverflowError
  else if (QProgressBar_minimum <=? v) && (v <=? QProgressBar_maximum)
       then Ok v else Ok current.

Record t := mk {
  lib : RyzenMonitorLib.t;
  core_table : QTableWidget;
  labels : Label -> string;
  bars : Bar -> Z
}.

(** The window as [init_ui] builds it. *)
Definition init_ui (l : RyzenMonitorLib.t) : t :=
  {| lib := l;
     core_table := {| rowCount := 0; items := ∅ |};
     labels := λ _, "--";
     bars := λ _, -1 |}.

(** Statements run against the window; an exception stops the routine
    and keeps the writes made before it. *)
Definition M (A : Type) : Type := t -> result A * t.

#[global] Instance M_ret : MRet M := λ A a self, (Ok a, self).
#[global] Instance M_bind : MBind M := λ A B f m self,
  match m self with
  | (Ok a, self') => f a self'
  | (Raise e, self') => (Raise e, self')
  end.

Definition eval {A} (r : result A) : M A := λ self, (r, self).

Definition setText (l : Label) (s : string) : M unit := λ self,
  (Ok tt, mk (lib self) (core_table self) (<[l := s]> (labels self)) (bars self)).

Definition setValue (b : Bar) (v : Z) : M unit := λ self,
  match QProgressBar_setValue v (bars self b) with
  | Ok v' => (Ok tt, mk (lib self) (core_table self) (labels self) (<[b := v']> (bars self)))
  | Raise e => (Raise e, self)
  end.

Definition setRowCount (n : nat) : M unit := λ self,
  (Ok tt, mk (lib self) (QTableWidget_setRowCount n (core_table self))
             (labels self) (bars self)).

Definition setItem (r c : nat) (s : string) : M unit := λ self,
  (Ok tt, mk (lib self) (QTableWidget_setItem r c s (core_table self))
             (labels self) (bars self)).

(** [for i, x in enumerate(l): body] *)
Fixpoint for_enumerate {A} (body : nat -> A -> M unit) (i : nat) (l : list A)
  : M unit :=
  match l with
  | [] => mret tt
  | x :: l' => body i x ;; for_enumerate body (S i) l'
  end.

(** Truth value of a [c_int] field. *)
Definition truthy (n : Z) : bool := negb (n =? 0).

(** ["Disabled" if core.disabled else ("Sleeping" if core.sleeping else
    f"{core.frequency:.0f}")] *)
Definition status (core : CoreData.t) : string :=
  if truthy (CoreData.disabled core) then "Disabled"
  else if truthy (CoreData.sleeping core) then "Sleeping"
  else Format.fixed 0 (get (CoreData.frequency core)).

Definition core_row (i : nat) (core : CoreData.t) : M unit :=
  let status := status core in
  setItem i 0 ("Core " +:+ Format.int (CoreData.core_num core)) ;;
  setItem i 1 status ;;
  setItem i 2 (Format.fixed 3 (get (CoreData.power core))) ;;
  setItem i 3 (Format.fixed 3 (get (CoreData.voltage core))) ;;
  setItem i 4 (Format.fixed 1 (get (CoreData.temp core))) ;;
  setItem i 5 (Format.fixed 1 (get (CoreData.c0 core))) ;;
  setItem i 6 (Format.fixed 1 (get (CoreData.cc1 core))) ;;
  setItem i 7 (Format.fixed 1 (get (CoreData.cc6 core))).

Definition update_core_table (cores : list CoreData.t) : M unit :=
  setRowCount (length cores) ;;
  for_enumerate core_row 0 cores.

Definition update_stats (stats : CalculatedStats.t) : M unit :=
  let pkg := get (CalculatedStats.package_cc6 stats) in
  setText peak_freq_value (Format.fixed 0 (get (CalculatedStats.peak_core_frequency stats)) +:+ " MHz") ;;
  setText peak_temp_value (Format.fixed 1 (get (CalculatedStats.peak_core_temp stats)) +:+ " °C") ;;
  setText peak_volt_value (Format.fixed 3 (get (CalculatedStats.peak_core_voltage stats)) +:+ " V") ;;
  setText avg_volt_value (Format.fixed 3 (get (CalculatedStats.avg_core_voltage stats)) +:+ " V") ;;
  setText avg_cc6_value (Format.fixed 1 (get (CalculatedStats.avg_core_cc6 stats)) +:+ " %") ;;
  setText total_core_power_value (Format.fixed 3 (get (CalculatedStats.total_core_power stats)) +:+ " W") ;;
  setText smu_peak_volt_value (Format.fixed 3 (get (CalculatedStats.peak_core_voltage_smu stats)) +:+ " V") ;;
  setText pkg_cc6_value (if negb (ne pkg pkg) then Format.fixed 1 pkg +:+ " %" else "--").

(** [int(value / limit * 100) if limit > 0 else 0] *)
Definition bar_percent (value limit : c_float) : result Z :=
  if gt (get limit) (of_Z 0) then
    match truediv (get value) (get limit) with
    | Ok q => to_int (mul q (of_Z 100))
    | Raise e => Raise e
    end
  else Ok 0.

(** [f"{value:.1f} / {limit:.0f} unit"] *)
Definition bar_text (value limit : c_float) (unit : string) : string :=
  Format.fixed 1 (get value) +:+ " / " +:+ Format.fixed 0 (get limit) +:+ " " +:+ unit.

Definition update_constraints (c : ConstraintsData.t) : M unit :=
  setText peak_temp_con_value (Format.fixed 1 (get (ConstraintsData.peak_temp c)) +:+ " °C") ;;
  v ← eval (bar_percent (ConstraintsData.ppt_value c) (ConstraintsData.ppt_limit c)) ;
  setValue ppt_bar v ;;
  setText ppt_value (bar_text (ConstraintsData.ppt_value c) (ConstraintsData.ppt_limit c) "W") ;;
  v ← eval (bar_percent (ConstraintsData.tdc_value c) (ConstraintsData.tdc_limit c)) ;
  setValue tdc_bar v ;;
  setText tdc_value (bar_text (ConstraintsData.tdc_value c) (ConstraintsData.tdc_limit c) "A") ;;
  v ← eval (bar_percent (ConstraintsData.edc_value c) (ConstraintsData.edc_limit c)) ;
  setValue edc_bar v ;;
  setText edc_value (bar_text (ConstraintsData.edc_value c) (ConstraintsData.edc_limit c) "A") ;;
  v ← eval (bar_percent (ConstraintsData.thm_value c) (ConstraintsData.thm_limit c)) ;
  setValue thm_bar v ;;
  setText thm_value (bar_text (ConstraintsData.thm_value c) (ConstraintsData.thm_limit c) "C").

Definition update_memory (m : MemoryData.t) : M unit :=
  setText fclk_value (Format.fixed 0 (get (MemoryData.fclk_freq m)) +:+ " MHz") ;;
  setText fclk_eff_value (Format.fixed 0 (get (MemoryData.fclk_freq_eff m)) +:+ " MHz") ;;
  setText uclk_value (Format.fixed 0 (get (MemoryData.uclk_freq m)) +:+ " MHz") ;;
  setText memclk_value (Format.fixed 0 (get (MemoryData.memclk_freq m)) +:+ " MHz") ;;
  setText coupled_value (if truthy (MemoryData.coupled_mode m) then "ON" else "OFF").

Definition update_power (p : PowerData.t) : M unit :=
  setText socket_power_value (Format.fixed 3 (get (PowerData.socket_power p)) +:+ " W") ;;
  setText core_power_value (Format.fixed 3 (get (PowerData.total_core_power p)) +:+ " W") ;;
  setText soc_power_value (Format.fixed 3 (get (PowerData.vddcr_soc_power p)) +:+ " W").

Definition update_graphics (g : GraphicsData.t) : M unit :=
  setText gfx_clk_value (Format.fixed 0 (get (GraphicsData.gfx_freq g)) +:+ " MHz") ;;
  setText gfx_temp_value (Format.fixed 1 (get (GraphicsData.gfx_temp g)) +:+ " °C").

(** [if x: body] on a structure or [None]: a structure is always true. *)
Definition when_present {A} (x : option A) (body : A -> M unit) : M unit :=
  match x with Some a => body a | None => mret tt end.

(** The body of [update_data] below the early return. *)
Definition render (cores : list CoreData.t)
    (constraints : option ConstraintsData.t) (memory : option MemoryData.t)
    (power : option PowerData.t) (graphics : option GraphicsData.t)
    (stats : option CalculatedStats.t) : M unit :=
  update_core_table cores ;;
  when_present stats update_stats ;;
  when_present constraints update_constraints ;;
  when_present memory update_memory ;;
  when_present power update_power ;;
  when_present graphics update_graphics.

Definition max_cores_default : Z := 32.

Definition update_data (self : t) (w : World) : result unit * t * World :=
  let '(r, l, w') := RyzenMonitorLib.read_data (lib self) max_cores_default w in
  let self := mk l (core_table self) (labels self) (bars self) in
  match r with
  | Raise e => (Raise e, self, w')
  | Ok (cores, constraints, memory, power, graphics, stats) =>
      match cores with
      | None | Some [] => (Ok tt, self, w')
      | Some cores =>
          let '(r', self') :=
            render cores constraints memory power graphics stats self in
          (r', self', w')
      end
  end.

End RyzenMonitorGUI.

(** ** A sample machine

    Eight cores of which two are fused off, a zero PPT limit with 45.2 W
    drawn, and a library that answers every call the same way. *)

Module Sample.
Import Float.

(** The binary32 value nearest to [num / den]. *)
Definition f32 (num den : Z) : c_float :=
  SFdiv prec32 emax32 (binary_normalize prec32 emax32 num 0 false)
                      (binary_normalize prec32 emax32 den 0 false).

Definition core (n : Z) (mhz : c_float) (off asleep : Z) : CoreData.t :=
  let z := S754_zero false in
  CoreData.mk n mhz (f32 1234 1000) (f32 11 10) (f32 455 10) z z z off asleep.

(** A core reported both disabled and sleeping. *)
Definition both_flags : CoreData.t := core 5 (S754_infinity false) 1 1.

Definition cores : list CoreData.t :=
  [ core 0 (f32 35995 10) 0 0; core 1 (f32 4200 1) 0 0;
    core 2 S754_nan 1 0;       core 3 (f32 0 1) 0 1;
    core 4 (f32 5 2) 0 0;      both_flags;
    core 6 (f32 7 2) 0 0;      core 7 (f32 3000 1) 0 0 ].

Definition constraints : ConstraintsData.t :=
  let z := S754_zero false in
  ConstraintsData.mk (f32 61 1) z z z z (f32 452 10)
    z z z z z z z z z z z z z z z z z z z z.

Definition reply : ReadReply :=
  {| num_cores := 8; cores_out := cores; constraints_out := constraints;
     memory_out := MemoryData.zero; power_out := PowerData.zero;
     graphics_out := GraphicsData.zero; stats_out := CalculatedStats.zero |}.

Definition library : CDLL :=
  {| ryzen_init := λ _, 0;
     ryzen_get_system_info := λ _, (0, SystemData.zero);
     ryzen_read_data := λ _ _, reply |}.

(** A library whose read fails. *)
Definition failing : CDLL :=
  {| ryzen_init := λ _, 0;
     ryzen_get_system_info := λ _, (-1, SystemData.zero);
     ryzen_read_data := λ _ _,
       {| num_cores := -1; cores_out := []; constraints_out := ConstraintsData.zero;
          memory_out := MemoryData.zero; power_out := PowerData.zero;
          graphics_out := GraphicsData.zero; stats_out := CalculatedStats.zero |} |}.

Definition library_with (r : ReadReply) : CDLL :=
  {| ryzen_init := λ _, 0;
     ryzen_get_system_info := λ _, (0, SystemData.zero);
     ryzen_read_data := λ _ _, r |}.

(** Silicon on which no aggregate is populated. *)
Definition nan_stats : CalculatedStats.t :=
  let n := S754_nan in CalculatedStats.mk n n n n n n n n.

Definition nan_stats_library : CDLL :=
  library_with
    {| num_cores := 8; cores_out := cores; constraints_out := constraints;
       memory_out := MemoryData.zero; power_out := PowerData.zero;
       graphics_out := GraphicsData.zero; stats_out := nan_stats |}.

(** A PPT reading that is not a number under a limit of 100 W. *)
Definition nan_ppt : ConstraintsData.t :=
  let z := S754_zero false in
  ConstraintsData.mk (f32 61 1) z z z z S754_nan
    (f32 100 1) z z z z z z z z z z z z z z z z z z z.

Definition nan_ppt_library : CDLL :=
  library_with
    {| num_cores := 8; cores_out := cores; constraints_out := nan_ppt;
       memory_out := MemoryData.zero; power_out := PowerData.zero;
       graphics_out := GraphicsData.zero; stats_out := CalculatedStats.zero |}.

Definition reader (h : CDLL) : RyzenMonitorLib.t :=
  RyzenMonitorLib.mk (Some h) true.

Definition window (h : CDLL) : RyzenMonitorGUI.t :=
  RyzenMonitorGUI.init_ui (reader h).

(** The freshly built window over the sample library, and the history
    after its first tick. *)
Definition machine : RyzenMonitorGUI.t := window library.
Definition after_read : World :=
  [ryzen_read_data_call RyzenMonitorGUI.max_cores_default].

End Sample.

(** ** Vocabulary of the statements *)

(** A reader is well formed when its flag is raised only over a loaded
    handle. *)
Definition wf (self : RyzenMonitorLib.t) : bool :=
  if RyzenMonitorLib.initialized self
  then match RyzenMonitorLib.lib self with Some _ => true | None => false end
  else true.

(** How often the library's cleanup entry point ran. *)
Definition cleanup_calls (w : World) : nat :=
  length (filter (λ c, c = ryzen_cleanup_call) w).

(** The text of the table cell at a row and a column, if an item is there. *)
Definition cell (self : RyzenMonitorGUI.t) (row col : nat) : option string :=
  RyzenMonitorGUI.items (RyzenMonitorGUI.core_table self) !! (row, col).

Definition frequency_column : nat := 1.

(** The window after one timer tick. *)
Definition after_update (self : RyzenMonitorGUI.t) (w : World) : RyzenMonitorGUI.t :=
  (RyzenMonitorGUI.update_data self w).1.2.

(** The eight cells [update_data] writes for one core, left to right. *)
Definition row_text (core : CoreData.t) : list string :=
  [ "Core " +:+ Format.int (CoreData.core_num core);
    RyzenMonitorGUI.status core;
    Format.fixed 3 (Float.get (CoreData.power core));
    Format.fixed 3 (Float.get (CoreData.voltage core));
    Format.fixed 1 (Float.get (CoreData.temp core));
    Format.fixed 1 (Float.get (CoreData.c0 core));
    Format.fixed 1 (Float.get (CoreData.cc1 core));
    Format.fixed 1 (Float.get (CoreData.cc6 core)) ].

(** The window with the items of its table replaced. *)
Definition with_items (self : RyzenMonitorGUI.t) (its : gmap (nat * nat) string)
  : RyzenMonitorGUI.t :=
  RyzenMonitorGUI.mk (RyzenMonitorGUI.lib self)
    {| RyzenMonitorGUI.rowCount := RyzenMonitorGUI.rowCount (RyzenMonitorGUI.core_table self);
       RyzenMonitorGUI.items := its |}
    (RyzenMonitorGUI.labels self) (RyzenMonitorGUI.bars self).

(** The limit that belongs to a progress bar. *)
Definition limit_of (b : RyzenMonitorGUI.Bar) (c : ConstraintsData.t) : Float.c_float :=
  match b with
  | RyzenMonitorGUI.ppt_bar => ConstraintsData.ppt_limit c
  | RyzenMonitorGUI.tdc_bar => ConstraintsData.tdc_limit c
  | RyzenMonitorGUI.edc_bar => ConstraintsData.edc_limit c
  | RyzenMonitorGUI.thm_bar => ConstraintsData.thm_limit c
  end.

(** A statement leaves one aspect of the window alone. *)
Definition preserves {A X} (aspect : RyzenMonitorGUI.t → X) (m : RyzenMonitorGUI.M A) : Prop :=
  ∀ self, aspect (m self).2 = aspect self.

(** A statement never raises. *)
Definition succeeds (m : RyzenMonitorGUI.M unit) : Prop :=
  ∀ self, (m self).1 = Ok tt.

(** ** Sequences of reader calls and the library's side of them *)

(** The methods called one after the other, exceptions caught by the
    caller. *)
Fixpoint run (ms : list RyzenMonitorLib.method) (self : RyzenMonitorLib.t) (w : World)
  : RyzenMonitorLib.t * World :=
  match ms with
  | [] => (self, w)
  | m :: ms' =>
      let '(s, w') := RyzenMonitorLib.call m self w in run ms' s w'
  end.

(** A call that leaves the handle alone: everything but [load]. *)
Definition keeps_handle (m : RyzenMonitorLib.method) : bool :=
  match m with
  | RyzenMonitorLib.Load _ => false
  | _ => true
  end.

(** The library [h] as a history of calls leaves it: open after a
    [ryzen_init] that returned 0, closed after [ryzen_cleanup].  The
    scan stops with [None] at a cleanup, a system-info or a read call
    that reaches a closed library. *)
Definition protocol_step (h : CDLL) (acc : option (World * bool)) (c : ffi_call)
  : option (World * bool) :=
  match acc with
  | None => None
  | Some (past, opened) =>
      match c with
      | ryzen_init_call =>
          Some (past ++ [c], if ryzen_init h past =? 0 then true else opened)
      | ryzen_cleanup_call =>
          if opened then Some (past ++ [c], false) else None
      | _ =>
          if opened then Some (past ++ [c], opened) else None
      end
  end.

Definition protocol (h : CDLL) (w : World) : option (World * bool) :=
  foldl (protocol_step h) (Some ([], false)) w.


(** ** Vocabulary for the tick as a whole *)

(** The exceptions that arithmetic on a reading can raise. *)
Definition numeric_failure (e : exn) : bool :=
  match e with
  | ValueError | OverflowError => true
  | AttributeError | ZeroDivisionError => false
  end.

(** A statement raises nothing but numeric failures. *)
Definition raises_only_numeric {A} (m : RyzenMonitorGUI.M A) : Prop :=
  ∀ self e, (m self).1 = Raise e → numeric_failure e = true.

(** The labels of the memory, power and graphics groups, which
    [update_data] writes after the constraints. *)
Definition written_after_constraints (l : RyzenMonitorGUI.Label) : bool :=
  match l with
  | RyzenMonitorGUI.fclk_value | RyzenMonitorGUI.fclk_eff_value
  | RyzenMonitorGUI.uclk_value | RyzenMonitorGUI.memclk_value
  | RyzenMonitorGUI.coupled_value
  | RyzenMonitorGUI.socket_power_value | RyzenMonitorGUI.core_power_value
  | RyzenMonitorGUI.soc_power_value
  | RyzenMonitorGUI.gfx_clk_value | RyzenMonitorGUI.gfx_temp_value => true
  | _ => false
  end.


(** ** The rest of the window: system information, startup, shutdown

    [RyzenMonitorGUI.__init__], [update_system_info] and [closeEvent]
    work on the attributes the refresh does not touch: the fetched
    [sysdata], the four labels of the system group and the timer. *)

Module MainWindow.

Inductive SystemLabel := cpu_label | codename_label | cores_label | smu_label.

#[global] Instance SystemLabel_eq_dec : EqDecision SystemLabel.
Proof. solve_decision. Defined.

(** What can end a method here besides a builtin exception: a failed
    [bytes.decode] and [sys.exit]. *)
Inductive failure :=
  | Builtin (e : exn)
  | UnicodeDecodeError
  | SystemExit (code : Z).

Inductive outcome (A : Type) :=
  | Done (a : A)
  | Failed (f : failure).
Arguments Done {A} a.
Arguments Failed {A} f.

(** The two [QMessageBox.critical] dialogs of [__init__]: "Failed to
    load libryzen_monitor.so ..." and "Failed to initialize Ryzen
    Monitor ...". *)
Inductive dialog := LoadFailedDialog | InitFailedDialog.

(** Reading a [c_char * N] field: the bytes before the first NUL. *)
Fixpoint c_string (buf : string) : string :=
  match buf with
  | EmptyString => EmptyString
  | String c rest =>
      if (N_of_ascii c =? 0)%N then EmptyString else String c (c_string rest)
  end.

Definition between (lo hi : N) (c : ascii) : bool :=
  ((lo <=? N_of_ascii c) && (N_of_ascii c <=? hi))%N.

(** Well-formed UTF-8 as the strict decoder accepts it: shortest forms
    only, no surrogates, nothing above U+10FFFF. *)
Fixpoint utf8_valid (s : string) : bool :=
  match s with
  | EmptyString => true
  | String c1 r1 =>
      if between 0 127 c1 then utf8_valid r1
      else if between 194 223 c1 then
        match r1 with
        | String c2 r2 => between 128 191 c2 && utf8_valid r2
        | _ => false
        end
      else if between 224 239 c1 then
        match r1 with
        | String c2 (String c3 r3) =>
            (if between 224 224 c1 then between 160 191 c2
             else if between 237 237 c1 then between 128 159 c2
             else between 128 191 c2)
            && between 128 191 c3 && utf8_valid r3
        | _ => false
        end
      else if between 240 244 c1 then
        match r1 with
        | String c2 (String c3 (String c4 r4)) =>
            (if between 240 240 c1 then between 144 191 c2
             else if between 244 244 c1 then between 128 143 c2
             else between 128 191 c2)
            && between 128 191 c3 && between 128 191 c4 && utf8_valid r4
        | _ => false
        end
      else false
  end.

(** [field.decode('utf-8')]: text is kept as its UTF-8 bytes, so a
    successful decode returns the bytes it was given. *)
Definition decode (field : string) : outcome string :=
  let bytes := c_string field in
  if utf8_valid bytes then Done bytes else Failed UnicodeDecodeError.

Record t := mk {
  gui : RyzenMonitorGUI.t;
  system_labels : SystemLabel -> string;
  sysdata : option SystemData.t;
  timer_active : bool
}.

(** The timer's interval in milliseconds. *)
Definition interval : Z := 2000.

(** The system group as [init_ui] builds it. *)
Definition init_ui_system (l : SystemLabel) : string :=
  match l with
  | cpu_label => "CPU: Loading..."
  | codename_label => "Codename: Loading..."
  | cores_label => "Cores: Loading..."
  | smu_label => "SMU Version: Loading..."
  end.

Definition setText (l : SystemLabel) (s : string) (self : t) : t :=
  mk (gui self) (<[l := s]> (system_labels self)) (sysdata self) (timer_active self).

Definition update_system_info (self : t) : outcome unit * t :=
  match sysdata self with
  | None => (Done tt, self)
  | Some sd =>
      match decode (SystemData.cpu_name sd) with
      | Failed f => (Failed f, self)
      | Done name =>
          let self := setText cpu_label ("CPU: " +:+ name) self in
          match decode (SystemData.codename sd) with
          | Failed f => (Failed f, self)
          | Done code =>
              let self := setText codename_label ("Codename: " +:+ code) self in
              let self :=
                setText cores_label
                  ("Cores: " +:+ Format.int (SystemData.enabled_cores_count sd)
                   +:+ " / CCDs: " +:+ Format.int (SystemData.ccds sd)) self in
              match decode (SystemData.smu_fw_ver sd) with
              | Failed f => (Failed f, self)
              | Done ver => (Done tt, setText smu_label ("SMU: v" +:+ ver) self)
              end
          end
      end
  end.

(** [__init__]: [env] is what loading the library next to the script
    finds.  A failed construction leaves no window behind, only the
    dialog shown and the calls made. *)
Definition __init__ (env : option CDLL) (w : World)
  : outcome t * list dialog * World :=
  let lib := RyzenMonitorLib.new in
  let window := RyzenMonitorGUI.init_ui lib in
  let '(loaded, lib) := RyzenMonitorLib.load env lib in
  if negb loaded then (Failed (SystemExit 1), [LoadFailedDialog], w)
  else
    match RyzenMonitorLib.init lib w with
    | (Raise e, _, w) => (Failed (Builtin e), [], w)
    | (Ok false, _, w) => (Failed (SystemExit 1), [InitFailedDialog], w)
    | (Ok true, lib, w) =>
        match RyzenMonitorLib.get_system_info lib w with
        | (Raise e, _, w) => (Failed (Builtin e), [], w)
        | (Ok sd, lib, w) =>
            let self :=
              mk (RyzenMonitorGUI.mk lib (RyzenMonitorGUI.core_table window)
                    (RyzenMonitorGUI.labels window) (RyzenMonitorGUI.bars window))
                 init_ui_system sd false in
            match (match sd with
                   | Some _ => update_system_info self
                   | None => (Done tt, self)
                   end) with
            | (Failed f, _) => (Failed f, [], w)
            | (Done _, self) =>
                (Done (mk (gui self) (system_labels self) (sysdata self) true), [], w)
            end
        end
    end.

(** The timer's [timeout] signal: connected to [update_data], delivered
    only while the timer runs. *)
Definition timeout (self : t) (w : World) : result unit * t * World :=
  if timer_active self then
    let '(r, g, w') := RyzenMonitorGUI.update_data (gui self) w in
    (r, mk g (system_labels self) (sysdata self) (timer_active self), w')
  else (Ok tt, self, w).

(** [closeEvent]: the result is whether the event was accepted. *)
Definition closeEvent (self : t) (w : World) : result bool * t * World :=
  let self := mk (gui self) (system_labels self) (sysdata self) false in
  match RyzenMonitorLib.cleanup (RyzenMonitorGUI.lib (gui self)) w with
  | (Raise e, lib, w') =>
      (Raise e,
       mk (RyzenMonitorGUI.mk lib (RyzenMonitorGUI.core_table (gui self))
             (RyzenMonitorGUI.labels (gui self)) (RyzenMonitorGUI.bars (gui self)))
          (system_labels self) (sysdata self) (timer_active self), w')
  | (Ok _, lib, w') =>
      (Ok true,
       mk (RyzenMonitorGUI.mk lib (RyzenMonitorGUI.core_table (gui self))
             (RyzenMonitorGUI.labels (gui self)) (RyzenMonitorGUI.bars (gui self)))
          (system_labels self) (sysdata self) (timer_active self), w')
  end.

(** Up to [n] timer ticks in a row: an exception that escapes the slot
    ends the run. *)
Fixpoint ticks (n : nat) (self : t) (w : World) : result unit * t * World :=
  match n with
  | O => (Ok tt, self, w)
  | S n' =>
      match timeout self w with
      | (Ok _, self', w') => ticks n' self' w'
      | (Raise e, self', w') => (Raise e, self', w')
      end
  end.

End MainWindow.

(** Bytes below 128 only. *)
Definition ascii_only (s : string) : bool :=
  forallb (λ c, (N_of_ascii c <? 128)%N) (list_ascii_of_string s).

(** A machine that names itself. *)
Module Bench.

Definition sysdata : SystemData.t :=
  SystemData.mk "AMD Ryzen 9 5950X 16-Core Processor" "Vermeer" "56.53.0"
    16 2 4 4 2 16.

Definition library : CDLL :=
  {| ryzen_init := λ _, 0;
     ryzen_get_system_info := λ _, (0, sysdata);
     ryzen_read_data := λ _ _, Sample.reply |}.

(** The outcome of [__init__] over it, and the window it builds. *)
Definition startup : MainWindow.outcome MainWindow.t * list MainWindow.dialog * World :=
  MainWindow.__init__ (Some library) [].

Definition started : MainWindow.t :=
  match startup.1.1 with
  | MainWindow.Done win => win
  | MainWindow.Failed _ =>
      MainWindow.mk (RyzenMonitorGUI.init_ui RyzenMonitorLib.new)
        MainWindow.init_ui_system None false
  end.

(** The window between the fetch of the system record and its display. *)
Definition fetched : MainWindow.t :=
  MainWindow.mk (Sample.window library) MainWindow.init_ui_system (Some sysdata) false.

(** A caller that polls, closes, polls again and reopens. *)
Definition script : list RyzenMonitorLib.method :=
  [ RyzenMonitorLib.Init; RyzenMonitorLib.GetSystemInfo; RyzenMonitorLib.ReadData 32;
    RyzenMonitorLib.Cleanup; RyzenMonitorLib.ReadData 32; RyzenMonitorLib.Cleanup;
    RyzenMonitorLib.Init; RyzenMonitorLib.ReadData 8 ].

End Bench.

(** ** Properties of the reader state machine *)

Section Reader.
Import RyzenMonitorLib.

Lemma wf_new : wf new = true.
Proof. reflexivity. Qed.

(** Well-formedness is an invariant of the five methods. *)
Lemma wf_call (m : method) (self : t) (w : World) :
  wf self = true → wf (call m self w).1 = true.
Proof.
  unfold wf. destruct self as [l i], m as [[h|]| | | |n]; simpl; intros Hwf.
  - destruct i; reflexivity.
  - exact Hwf.
  - unfold init; simpl. destruct l as [h|]; simpl; [|exact Hwf].
    destruct (ryzen_init h w =? 0); simpl; [reflexivity|exact Hwf].
  - unfold cleanup; simpl. destruct i; simpl; [|reflexivity].
    destruct l; simpl; [reflexivity|discriminate].
  - unfold get_system_info; simpl. destruct i; simpl; [|reflexivity].
    destruct l as [h|]; simpl; [|discriminate].
    destruct (ryzen_get_system_info h w); simpl. reflexivity.
  - unfold read_data; simpl. destruct i; simpl; [|reflexivity].
    destruct (n <? 0); simpl; [exact Hwf|].
    destruct l as [h|]; simpl; [|discriminate].
    destruct (0 <? num_cores (ryzen_read_data h w n)); simpl; reflexivity.
Qed.

Lemma cleanup_calls_snoc (w : World) (c : ffi_call) :
  cleanup_calls (w ++ [c]) =
  (cleanup_calls w + (if decide (c = ryzen_cleanup_call) then 1 else 0))%nat.
Proof.
  unfold cleanup_calls. rewrite filter_app, length_app. f_equal.
  rewrite filter_cons, filter_nil. destruct (decide (c = ryzen_cleanup_call)); reflexivity.
Qed.

Lemma read_data_self (self : t) (n : Z) (w : World) :
  (read_data self n w).1.2 = self.
Proof.
  unfold read_data. destruct (negb (initialized self)); [reflexivity|].
  destruct (n <? 0); [reflexivity|]. destruct (lib self); [|reflexivity].
  destruct (0 <? _); reflexivity.
Qed.

Lemma length_buffer (n : Z) (written : list CoreData.t) :
  length (buffer n written) = Z.to_nat n.
Proof. apply length_resize. Qed.

(** A failed read: the call is made and the all-[None] tuple comes back. *)
Lemma read_data_no_cores (self : t) (h : CDLL) (max_cores : Z) (w : World) :
  lib self = Some h → initialized self = true → 0 ≤ max_cores →
  num_cores (ryzen_read_data h w max_cores) ≤ 0 →
  read_data self max_cores w = (Ok all_None, self, w ++ [ryzen_read_data_call max_cores]).
Proof.
  intros Hlib Hinit Hmax Hn. unfold read_data. rewrite Hinit, Hlib. simpl.
  destruct (max_cores <? 0) eqn:Hneg; [lia|].
  destruct (0 <? num_cores _) eqn:Hpos; [lia|reflexivity].
Qed.

(** C6. Teardown is idempotent: on a well-formed reader two calls of
    [cleanup] in a row both return normally, the second changes
    nothing, and the library's cleanup ran once if the reader was
    initialized and not at all if it never was. *)
Theorem cleanup_twice (self : t) (w : World) :
  wf self = true →
  ∃ s1 w1,
    cleanup self w = (Ok tt, s1, w1) ∧
    cleanup s1 w1 = (Ok tt, s1, w1) ∧
    initialized s1 = false ∧
    cleanup_calls w1 =
      (cleanup_calls w + (if initialized self then 1 else 0))%nat.
Proof.
  intros Hwf. unfold wf in Hwf. unfold cleanup at 1.
  destruct (initialized self) eqn:Hi.
  - destruct (lib self) as [h|] eqn:Hh; [|discriminate].
    eexists _, _. split; [reflexivity|]. split; [reflexivity|].
    split; [reflexivity|]. rewrite cleanup_calls_snoc. reflexivity.
  - exists self, w. unfold cleanup. rewrite Hi.
    repeat split; try reflexivity. lia.
Qed.


(** C8. While the flag is down, [read_data] and [get_system_info]
    answer with [None] and make no foreign call; and the only method
    that raises the flag is [init], when [ryzen_init] returned 0. *)
Theorem uninitialized_reader (self : t) (w : World) :
  initialized self = false →
  (∀ max_cores, read_data self max_cores w = (Ok all_None, self, w)) ∧
  get_system_info self w = (Ok None, self, w) ∧
  (∀ m, initialized (call m self w).1 = true →
        m = Init ∧ ∃ h, lib self = Some h ∧ ryzen_init h w = 0).
Proof.
  intros Hi. split; [|split].
  - intros n. unfold read_data. rewrite Hi. reflexivity.
  - unfold get_system_info. rewrite Hi. reflexivity.
  - intros m. destruct m as [[h|]| | | |n]; simpl.
    + rewrite Hi. discriminate.
    + rewrite Hi. discriminate.
    + unfold init. destruct (lib self) as [h|]; simpl; [|rewrite Hi; discriminate].
      destruct (ryzen_init h w =? 0) eqn:Hrc; simpl; [|rewrite Hi; discriminate].
      intros _. split; [reflexivity|]. exists h. split; [reflexivity|lia].
    + unfold cleanup. rewrite Hi. simpl. rewrite Hi. discriminate.
    + unfold get_system_info. rewrite Hi. simpl. rewrite Hi. discriminate.
    + unfold read_data. rewrite Hi. simpl. rewrite Hi. discriminate.
Qed.

(** C10. Whatever count the library reports, the list [read_data]
    returns is no longer than the buffer; a count above [max_cores]
    yields the whole buffer and nothing beyond it. *)
Theorem read_data_at_most_max_cores (self : t) (max_cores : Z) (w : World)
    (cores : list CoreData.t) (c : option ConstraintsData.t)
    (m : option MemoryData.t) (p : option PowerData.t)
    (g : option GraphicsData.t) (st : option CalculatedStats.t)
    (s : t) (w' : World) :
  read_data self max_cores w = (Ok (Some cores, c, m, p, g, st), s, w') →
  Z.of_nat (length cores) ≤ max_cores ∧
  ∃ h, lib self = Some h ∧
    let reply := ryzen_read_data h w max_cores in
    Z.of_nat (length cores) = Z.min (num_cores reply) max_cores ∧
    (max_cores < num_cores reply → cores = buffer max_cores (cores_out reply)).
Proof.
  unfold read_data. destruct (negb (initialized self)); [discriminate|].
  destruct (max_cores <? 0) eqn:Hneg; [discriminate|].
  destruct (lib self) as [h|]; [|discriminate].
  destruct (0 <? num_cores (ryzen_read_data h w max_cores)) eqn:Hn; [|discriminate].
  intros [= <- _ _ _ _ _ _ _].
  rewrite length_take, length_buffer. split; [lia|].
  exists h. split; [reflexivity|]. simpl. split; [lia|].
  intros Hgt. apply take_ge. rewrite length_buffer. lia.
Qed.

End Reader.

(** ** Properties of the float operations and of the formatting *)

Section Numbers.
Import Float Format.

Lemma le_zero_not_gt (x : py_float) :
  le x (of_Z 0) = true → gt x (of_Z 0) = false.
Proof.
  unfold le, gt, SFleb, SFltb.
  destruct x as [s|s| |s m e]; simpl; try destruct s; simpl; congruence.
Qed.


Lemma ne_self (x : py_float) : ne x x = is_nan x.
Proof.
  unfold ne, SFeqb. destruct x as [s|s| |s m e]; simpl; try reflexivity.
  - destruct s; reflexivity.
  - destruct s; rewrite Z.compare_refl, Pos.compare_cont_refl; reflexivity.
Qed.



(** The first character of a decimal numeral is a digit. *)
Lemma digits_start (n : Z) :
  match digits n with
  | String c _ => (48 ≤ nat_of_ascii c ≤ 57)%nat
  | EmptyString => False
  end.
Proof.
  unfold digits. destruct (N.to_uint (Z.to_N n)); cbv; lia.
Qed.

Lemma fixed0_not_word (x : py_float) (w : string) :
  match w with
  | String c _ => (65 ≤ nat_of_ascii c ≤ 90)%nat
  | EmptyString => False
  end →
  fixed 0 x ≠ w.
Proof.
  destruct w as [|c w]; [tauto|]. intros Hc Heq.
  assert (Hd : ∀ s n, sign s +:+ fixed_digits 0 n = String c w → False).
  { intros s n. pose proof (digits_start n) as Hn. simpl.
    destruct s; simpl.
    - intros [= <- _]. vm_compute in Hc. lia.
    - destruct (digits n) as [|c' r]; [tauto|]. intros [= <- _]. simpl in Hn. lia. }
  destruct x as [s|s| |s m e]; simpl in Heq.
  - eapply Hd, Heq.
  - destruct s; injection Heq as <- _; vm_compute in Hc; lia.
  - injection Heq as <- _; vm_compute in Hc; lia.
  - eapply Hd, Heq.
Qed.


End Numbers.

(** ** Properties of the display refresh *)

Section Window.
Import Float RyzenMonitorGUI.

Lemma bind_ok {A B} (m : M A) (f : A → M B) (self self' : t) (a : A) :
  m self = (Ok a, self') → (m ≫= f) self = f a self'.
Proof. intros H. unfold mbind, M_bind. rewrite H. reflexivity. Qed.

Lemma bind_raise {A B} (m : M A) (f : A → M B) (self self' : t) (e : exn) :
  m self = (Raise e, self') → (m ≫= f) self = (Raise e, self').
Proof. intros H. unfold mbind, M_bind. rewrite H. reflexivity. Qed.

Lemma setItem_inside (self : t) (its : gmap (nat * nat) string) (r c : nat) (s : string) :
  (r < rowCount (core_table self))%nat → (c < columnCount)%nat →
  setItem r c s (with_items self its) = (Ok tt, with_items self (<[(r, c) := s]> its)).
Proof.
  intros Hr Hc. unfold setItem, QTableWidget_setItem, with_items. simpl.
  rewrite !bool_decide_eq_true_2 by assumption. reflexivity.
Qed.

Lemma with_items_id (self : t) : with_items self (items (core_table self)) = self.
Proof. destruct self as [l [n its] lb bs]. reflexivity. Qed.

Lemma core_row_inside (self : t) (i : nat) (core : CoreData.t) :
  (i < rowCount (core_table self))%nat →
  ∃ its,
    core_row i core self = (Ok tt, with_items self its) ∧
    (∀ r c, r ≠ i → its !! (r, c) = items (core_table self) !! (r, c)) ∧
    (∀ c, (c < columnCount)%nat → its !! (i, c) = row_text core !! c).
Proof.
  intros Hi.
  assert (Hc : ∀ c, (c < 8)%nat → (c < columnCount)%nat) by (intros c H; exact H).
  assert (Hrow : ∀ its0, ∃ its,
            core_row i core (with_items self its0) = (Ok tt, with_items self its) ∧
            (∀ r c, r ≠ i → its !! (r, c) = its0 !! (r, c)) ∧
            (∀ c, (c < columnCount)%nat → its !! (i, c) = row_text core !! c)).
  { intros its0. unfold core_row.
    do 7 (erewrite bind_ok by (apply setItem_inside; [exact Hi|apply Hc; lia])).
    rewrite setItem_inside by (first [exact Hi|apply Hc; lia]).
    eexists. split; [reflexivity|]. split.
    - intros r c Hr. rewrite !lookup_insert_ne by congruence. reflexivity.
    - intros c Hlt. unfold columnCount in Hlt.
      do 8 (destruct c as [|c]; [simplify_map_eq; reflexivity|]). lia. }
  specialize (Hrow (items (core_table self))).
  rewrite with_items_id in Hrow. exact Hrow.
Qed.

(** The loop over the cores: the rows above [i] are left alone, row
    [i + k] receives the cells of the [k]-th core. *)
Lemma for_enumerate_core_row (cores : list CoreData.t) :
  ∀ (i : nat) (self : t),
    (i + length cores ≤ rowCount (core_table self))%nat →
    ∃ its,
      for_enumerate core_row i cores self = (Ok tt, with_items self its) ∧
      (∀ r c, (r < i)%nat → its !! (r, c) = items (core_table self) !! (r, c)) ∧
      (∀ k core c, cores !! k = Some core → (c < columnCount)%nat →
                   its !! ((i + k)%nat, c) = row_text core !! c).
Proof.
  induction cores as [|x cores IH]; intros i self Hlen; simpl in *.
  - exists (items (core_table self)). split.
    + rewrite with_items_id. reflexivity.
    + split; [reflexivity|]. intros k core c Hk. rewrite lookup_nil in Hk. discriminate.
  - destruct (core_row_inside self i x ltac:(lia)) as (its1 & Hrow & Hother & Hmine).
    rewrite (bind_ok _ _ _ _ _ Hrow).
    destruct (IH (S i) (with_items self its1) ltac:(simpl; lia))
      as (its & Hloop & Habove & Hrows).
    simpl in *. exists its. split; [exact Hloop|]. split.
    + intros r c Hr. rewrite Habove by lia. apply Hother. lia.
    + intros k core c Hk Hc. destruct k as [|k]; simpl in Hk.
      * injection Hk as ->. rewrite Nat.add_0_r, Habove by lia. apply Hmine, Hc.
      * replace (i + S k)%nat with (S i + k)%nat by lia. apply Hrows; assumption.
Qed.

Lemma update_core_table_spec (cores : list CoreData.t) (self : t) :
  ∃ its,
    update_core_table cores self =
      (Ok tt, mk (lib self) {| rowCount := length cores; items := its |}
                 (labels self) (bars self)) ∧
    ∀ k core c, cores !! k = Some core → (c < columnCount)%nat →
                its !! (k, c) = row_text core !! c.
Proof.
  unfold update_core_table, mbind, M_bind, setRowCount.
  destruct (for_enumerate_core_row cores 0
              (mk (lib self) (QTableWidget_setRowCount (length cores) (core_table self))
                  (labels self) (bars self)) ltac:(simpl; lia))
    as (its & Hloop & _ & Hrows).
  rewrite Hloop. exists its. split; [reflexivity|exact Hrows].
Qed.

(** Framing: which statements leave which part of the window alone. *)
Lemma preserves_bind {A B X} (aspect : t → X) (m : M A) (f : A → M B) :
  preserves aspect m → (∀ a, preserves aspect (f a)) → preserves aspect (m ≫= f).
Proof.
  intros Hm Hf self. unfold mbind, M_bind. specialize (Hm self).
  destruct (m self) as [[a|e] self']; simpl in *; [|exact Hm].
  rewrite Hf. exact Hm.
Qed.

Lemma preserves_ret {A X} (aspect : t → X) (a : A) : preserves aspect (mret a).
Proof. intros self. reflexivity. Qed.

Lemma preserves_eval {A X} (aspect : t → X) (r : result A) : preserves aspect (eval r).
Proof. intros self. reflexivity. Qed.

Lemma preserves_when_present {A X} (aspect : t → X) (x : option A) (body : A → M unit) :
  (∀ a, preserves aspect (body a)) → preserves aspect (when_present x body).
Proof. intros H. destruct x; simpl; [apply H|apply preserves_ret]. Qed.

Lemma setText_table (l : Label) (s : string) : preserves core_table (setText l s).
Proof. intros self. reflexivity. Qed.

Lemma setText_bars (l : Label) (s : string) : preserves bars (setText l s).
Proof. intros self. reflexivity. Qed.

Lemma setText_other (l l' : Label) (s : string) :
  l ≠ l' → preserves (λ self, labels self l') (setText l s).
Proof. intros Hne self. simpl. apply fn_lookup_insert_ne, Hne. Qed.

Lemma setValue_table (b : Bar) (v : Z) : preserves core_table (setValue b v).
Proof. intros self. unfold setValue. destruct (QProgressBar_setValue _ _); reflexivity. Qed.

Lemma setValue_labels (b : Bar) (v : Z) : preserves labels (setValue b v).
Proof. intros self. unfold setValue. destruct (QProgressBar_setValue _ _); reflexivity. Qed.

Lemma setValue_other (b b' : Bar) (v : Z) :
  b ≠ b' → preserves (λ self, bars self b') (setValue b v).
Proof.
  intros Hne self. unfold setValue. destruct (QProgressBar_setValue _ _); simpl;
    [apply fn_lookup_insert_ne, Hne|reflexivity].
Qed.

Lemma succeeds_bind (m : M unit) (f : unit → M unit) :
  succeeds m → (∀ a, succeeds (f a)) → succeeds (m ≫= f).
Proof.
  intros Hm Hf self. unfold mbind, M_bind. specialize (Hm self).
  destruct (m self) as [[[]|e] self']; simpl in *; [apply Hf|discriminate].
Qed.

Lemma succeeds_setText (l : Label) (s : string) : succeeds (setText l s).
Proof. intros self. reflexivity. Qed.

Lemma succeeds_when_present {A} (x : option A) (body : A → M unit) :
  (∀ a, succeeds (body a)) → succeeds (when_present x body).
Proof. intros H. destruct x; simpl; [apply H|intros self; reflexivity]. Qed.

Ltac frame :=
  repeat first
    [ apply preserves_bind; [|intros ?]
    | apply preserves_when_present; intros ?
    | apply preserves_ret
    | apply preserves_eval
    | apply setText_table | apply setText_bars
    | apply setValue_table | apply setValue_labels
    | apply setText_other; discriminate
    | apply setValue_other; discriminate ].

Ltac total :=
  repeat first
    [ apply succeeds_bind; [|intros ?]
    | apply succeeds_when_present; intros ?
    | apply succeeds_setText ].

(** Everything after the table block leaves the table alone. *)
Lemma update_stats_table (s : CalculatedStats.t) : preserves core_table (update_stats s).
Proof. unfold update_stats. frame. Qed.

Lemma update_constraints_table (c : ConstraintsData.t) :
  preserves core_table (update_constraints c).
Proof. unfold update_constraints. frame. Qed.

Lemma update_memory_table (m : MemoryData.t) : preserves core_table (update_memory m).
Proof. unfold update_memory. frame. Qed.

Lemma update_power_table (p : PowerData.t) : preserves core_table (update_power p).
Proof. unfold update_power. frame. Qed.

Lemma update_graphics_table (g : GraphicsData.t) : preserves core_table (update_graphics g).
Proof. unfold update_graphics. frame. Qed.

(** The blocks without a progress bar never raise and leave the bars
    and the constraint labels alone. *)
Lemma update_stats_succeeds (s : CalculatedStats.t) : succeeds (update_stats s).
Proof. unfold update_stats. total. Qed.

Lemma update_memory_succeeds (m : MemoryData.t) : succeeds (update_memory m).
Proof. unfold update_memory. total. Qed.

Lemma update_power_succeeds (p : PowerData.t) : succeeds (update_power p).
Proof. unfold update_power. total. Qed.

Lemma update_graphics_succeeds (g : GraphicsData.t) : succeeds (update_graphics g).
Proof. unfold update_graphics. total. Qed.

Lemma update_stats_bars (s : CalculatedStats.t) : preserves bars (update_stats s).
Proof. unfold update_stats. frame. Qed.

Lemma update_memory_bars (m : MemoryData.t) : preserves bars (update_memory m).
Proof. unfold update_memory. frame. Qed.

Lemma update_power_bars (p : PowerData.t) : preserves bars (update_power p).
Proof. unfold update_power. frame. Qed.

Lemma update_graphics_bars (g : GraphicsData.t) : preserves bars (update_graphics g).
Proof. unfold update_graphics. frame. Qed.

Lemma update_memory_ppt (m : MemoryData.t) :
  preserves (λ self, labels self ppt_value) (update_memory m).
Proof. unfold update_memory. frame. Qed.

Lemma update_power_ppt (p : PowerData.t) :
  preserves (λ self, labels self ppt_value) (update_power p).
Proof. unfold update_power. frame. Qed.

Lemma update_graphics_ppt (g : GraphicsData.t) :
  preserves (λ self, labels self ppt_value) (update_graphics g).
Proof. unfold update_graphics. frame. Qed.

(** [update_data] on a snapshot that passes the early return. *)
Lemma update_data_accepted (self : t) (w w' : World) (l : RyzenMonitorLib.t)
    (cores : list CoreData.t) (c : option ConstraintsData.t)
    (m : option MemoryData.t) (p : option PowerData.t)
    (g : option GraphicsData.t) (st : option CalculatedStats.t) :
  RyzenMonitorLib.read_data (lib self) max_cores_default w
    = (Ok (Some cores, c, m, p, g, st), l, w') →
  cores ≠ [] →
  update_data self w = ((render cores c m p g st self).1,
                        (render cores c m p g st self).2, w').
Proof.
  intros Hread Hne. unfold update_data.
  pose proof (read_data_self (lib self) max_cores_default w) as Hl.
  rewrite Hread in *. simpl in Hl. subst l.
  destruct cores as [|x cores]; [congruence|].
  destruct self as [l tb lb bs]. simpl.
  destruct (render _ _ _ _ _ _ _). reflexivity.
Qed.

Lemma render_table (self : t) (cores : list CoreData.t)
    (c : option ConstraintsData.t) (m : option MemoryData.t)
    (p : option PowerData.t) (g : option GraphicsData.t)
    (st : option CalculatedStats.t) :
  let self' := (render cores c m p g st self).2 in
  rowCount (core_table self') = length cores ∧
  ∀ k core col, cores !! k = Some core → (col < columnCount)%nat →
                items (core_table self') !! (k, col) = row_text core !! col.
Proof.
  destruct (update_core_table_spec cores self) as (its & Htab & Hrows).
  assert (Hrest : preserves core_table
            (when_present st update_stats ;;
             when_present c update_constraints ;;
             when_present m update_memory ;;
             when_present p update_power ;;
             when_present g update_graphics)).
  { frame; first [apply update_stats_table | apply update_constraints_table
                 | apply update_memory_table | apply update_power_table
                 | apply update_graphics_table]. }
  intros self'.
  assert (Htb : core_table self' = {| rowCount := length cores; items := its |}).
  { subst self'. unfold render. unfold mbind at 1. unfold M_bind at 1.
    rewrite Htab. rewrite Hrest. reflexivity. }
  rewrite Htb. simpl. split; [reflexivity|exact Hrows].
Qed.

(** After a tick on an accepted snapshot the table has one row per
    returned core and the frequency column holds the core's status. *)
Lemma update_data_table (self : t) (w w' : World) (l : RyzenMonitorLib.t)
    (cores : list CoreData.t) (c : option ConstraintsData.t)
    (m : option MemoryData.t) (p : option PowerData.t)
    (g : option GraphicsData.t) (st : option CalculatedStats.t) :
  RyzenMonitorLib.read_data (lib self) max_cores_default w
    = (Ok (Some cores, c, m, p, g, st), l, w') →
  cores ≠ [] →
  rowCount (core_table (after_update self w)) = length cores ∧
  ∀ i core, cores !! i = Some core →
            cell (after_update self w) i frequency_column = Some (status core).
Proof.
  intros Hread Hne. unfold after_update, cell.
  rewrite (update_data_accepted _ _ _ _ _ _ _ _ _ _ Hread Hne). simpl.
  destruct (render_table self cores c m p g st) as [Hn Hrows].
  split; [exact Hn|]. intros i core Hi.
  rewrite (Hrows i core frequency_column Hi) by (unfold columnCount, frequency_column; lia).
  reflexivity.
Qed.

Lemma setText_bar (l : Label) (s : string) (b : Bar) :
  preserves (λ self, bars self b) (setText l s).
Proof. intros self. reflexivity. Qed.

Lemma setValue_label (b : Bar) (v : Z) (l : Label) :
  preserves (λ self, labels self l) (setValue b v).
Proof. intros self. unfold setValue. destruct (QProgressBar_setValue _ _); reflexivity. Qed.

Lemma setValue_zero (current : Z) : QProgressBar_setValue 0 current = Ok 0.
Proof. reflexivity. Qed.

Lemma bar_percent_guard (value limit : c_float) :
  le (get limit) (of_Z 0) = true → bar_percent value limit = Ok 0.
Proof. intros Hle. unfold bar_percent. rewrite (le_zero_not_gt _ Hle). reflexivity. Qed.

(** The PPT statements run first: with a guarded limit the bar is at 0
    and the label is written, whatever the later pairs do. *)
Lemma update_constraints_ppt (c : ConstraintsData.t) (self : t) :
  le (get (ConstraintsData.ppt_limit c)) (of_Z 0) = true →
  bars (update_constraints c self).2 ppt_bar = 0 ∧
  labels (update_constraints c self).2 ppt_value =
    bar_text (ConstraintsData.ppt_value c) (ConstraintsData.ppt_limit c) "W".
Proof.
  intros Hle.
  pose (rest :=
    v ← eval (bar_percent (ConstraintsData.tdc_value c) (ConstraintsData.tdc_limit c)) ;
    setValue tdc_bar v ;;
    setText tdc_value (bar_text (ConstraintsData.tdc_value c) (ConstraintsData.tdc_limit c) "A") ;;
    v ← eval (bar_percent (ConstraintsData.edc_value c) (ConstraintsData.edc_limit c)) ;
    setValue edc_bar v ;;
    setText edc_value (bar_text (ConstraintsData.edc_value c) (ConstraintsData.edc_limit c) "A") ;;
    v ← eval (bar_percent (ConstraintsData.thm_value c) (ConstraintsData.thm_limit c)) ;
    setValue thm_bar v ;;
    setText thm_value (bar_text (ConstraintsData.thm_value c) (ConstraintsData.thm_limit c) "C")).
  assert (Hbar : preserves (λ self, bars self ppt_bar) rest).
  { unfold rest. repeat first
      [ apply preserves_bind; [|intros ?] | apply preserves_eval
      | apply setText_bar | apply setValue_other; discriminate ]. }
  assert (Hlab : preserves (λ self, labels self ppt_value) rest).
  { unfold rest. repeat first
      [ apply preserves_bind; [|intros ?] | apply preserves_eval
      | apply setValue_label | apply setText_other; discriminate ]. }
  assert (Heq : update_constraints c self =
            rest (mk (lib self) (core_table self)
                    (<[ppt_value := bar_text (ConstraintsData.ppt_value c)
                                             (ConstraintsData.ppt_limit c) "W"]>
                       (<[peak_temp_con_value :=
                            Format.fixed 1 (get (ConstraintsData.peak_temp c)) +:+ " °C"]>
                          (labels self)))
                    (<[ppt_bar := 0]> (bars self)))).
  { unfold update_constraints. fold rest.
    rewrite (bar_percent_guard _ _ Hle). reflexivity. }
  rewrite Heq, Hbar, Hlab. simpl. split; reflexivity.
Qed.

Lemma guarded_pair (b : Bar) (k : M unit) (self : t) :
  preserves (λ s, bars s b) k →
  bars ((eval (Ok 0) ≫= λ v, setValue b v ≫= λ _, k) self).2 b = 0.
Proof.
  intros Hk. unfold mbind, M_bind, eval, setValue. rewrite setValue_zero.
  rewrite Hk. simpl. apply fn_lookup_insert.
Qed.

Ltac step Hok :=
  match type of Hok with
  | ((?m ≫= ?f) ?s).1 = Ok tt =>
      let E := fresh "E" in
      destruct (m s) as [[?|?] ?] eqn:E;
      [ rewrite (bind_ok _ _ _ _ _ E) in Hok |- *; cbv beta in Hok |- *
      | rewrite (bind_raise _ _ _ _ _ E) in Hok; discriminate Hok ]
  end.

Ltac bar_frame :=
  repeat first
    [ apply preserves_bind; [|intros ?] | apply preserves_eval
    | apply setText_bar | apply setValue_other; discriminate ].

(** A bar whose limit is guarded stands at 0 once the block has run to
    its end, whatever the other three pairs are. *)
Lemma update_constraints_bar (c : ConstraintsData.t) (self : t) (b : Bar) :
  (update_constraints c self).1 = Ok tt →
  le (get (limit_of b c)) (of_Z 0) = true →
  bars (update_constraints c self).2 b = 0.
Proof.
  intros Hok Hle. unfold update_constraints in *.
  destruct b; simpl in Hle.
  - do 1 step Hok. rewrite (bar_percent_guard _ _ Hle).
    apply guarded_pair. bar_frame.
  - do 4 step Hok. rewrite (bar_percent_guard _ _ Hle).
    apply guarded_pair. bar_frame.
  - do 7 step Hok. rewrite (bar_percent_guard _ _ Hle).
    apply guarded_pair. bar_frame.
  - do 10 step Hok. rewrite (bar_percent_guard _ _ Hle).
    apply guarded_pair. bar_frame.
Qed.

Lemma update_constraints_guarded (c : ConstraintsData.t) (self : t) :
  le (get (ConstraintsData.ppt_limit c)) (of_Z 0) = true →
  le (get (ConstraintsData.tdc_limit c)) (of_Z 0) = true →
  le (get (ConstraintsData.edc_limit c)) (of_Z 0) = true →
  le (get (ConstraintsData.thm_limit c)) (of_Z 0) = true →
  (update_constraints c self).1 = Ok tt ∧
  ∀ b, bars (update_constraints c self).2 b = 0.
Proof.
  intros Hp Ht He Hm. unfold update_constraints.
  rewrite (bar_percent_guard _ _ Hp), (bar_percent_guard _ _ Ht),
          (bar_percent_guard _ _ He), (bar_percent_guard _ _ Hm).
  split; [reflexivity|]. intros []; reflexivity.
Qed.

(** The window after [render]: the bars and the PPT label are as the
    constraints block left them, and [render] raises only if that
    block does. *)
Lemma render_constraints (self : t) (cores : list CoreData.t)
    (c : ConstraintsData.t) (m : option MemoryData.t)
    (p : option PowerData.t) (g : option GraphicsData.t)
    (st : option CalculatedStats.t) :
  ∃ self2,
    bars self2 = bars self ∧
    bars (render cores (Some c) m p g st self).2 = bars (update_constraints c self2).2 ∧
    labels (render cores (Some c) m p g st self).2 ppt_value
      = labels (update_constraints c self2).2 ppt_value ∧
    (render cores (Some c) m p g st self).1 = (update_constraints c self2).1.
Proof.
  destruct (update_core_table_spec cores self) as (its & Htab & _).
  set (self1 := mk (lib self) {| rowCount := length cores; items := its |}
                   (labels self) (bars self)) in *.
  destruct (when_present st update_stats self1) as [r2 self2] eqn:Hst.
  assert (Hr2 : r2 = Ok tt).
  { pose proof (succeeds_when_present st update_stats update_stats_succeeds self1) as H.
    rewrite Hst in H. exact H. }
  assert (Hb2 : bars self2 = bars self).
  { pose proof (preserves_when_present bars st update_stats update_stats_bars self1) as H.
    rewrite Hst in H. exact H. }
  subst r2. exists self2. split; [exact Hb2|].
  set (tail := when_present m update_memory ;;
               when_present p update_power ;;
               when_present g update_graphics).
  assert (Htail_ok : succeeds tail).
  { unfold tail. total; first [apply update_memory_succeeds
      | apply update_power_succeeds | apply update_graphics_succeeds]. }
  assert (Htail_bars : preserves bars tail).
  { unfold tail. frame; first [apply update_memory_bars
      | apply update_power_bars | apply update_graphics_bars]. }
  assert (Htail_ppt : preserves (λ self, labels self ppt_value) tail).
  { unfold tail. frame; first [apply update_memory_ppt
      | apply update_power_ppt | apply update_graphics_ppt]. }
  assert (Hrender : render cores (Some c) m p g st self =
                    (update_constraints c ≫= λ _, tail) self2).
  { unfold render. rewrite (bind_ok _ _ _ _ _ Htab).
    rewrite (bind_ok _ _ _ _ _ Hst). reflexivity. }
  rewrite Hrender.
  destruct (update_constraints c self2) as [[[]|e] self3] eqn:Hc.
  - rewrite (bind_ok _ _ _ _ _ Hc). rewrite Htail_bars, Htail_ppt, Htail_ok.
    repeat split; reflexivity.
  - rewrite (bind_raise _ _ _ _ _ Hc). repeat split; reflexivity.
Qed.

End Window.

(** ** The display claims *)

Section Display.
Import Float RyzenMonitorGUI.

Lemma nonempty (cores : list CoreData.t) : (0 < length cores)%nat → cores ≠ [].
Proof. destruct cores; simpl; [lia|discriminate]. Qed.

Lemma status_cases (core : CoreData.t) :
  (CoreData.disabled core ≠ 0 → status core = "Disabled") ∧
  (CoreData.disabled core = 0 → CoreData.sleeping core ≠ 0 → status core = "Sleeping") ∧
  (CoreData.disabled core = 0 → CoreData.sleeping core = 0 →
     status core = Format.fixed 0 (get (CoreData.frequency core))).
Proof.
  unfold status, truthy. repeat split.
  - intros H. destruct (Z.eqb_spec (CoreData.disabled core) 0); [contradiction|reflexivity].
  - intros -> H. simpl.
    destruct (Z.eqb_spec (CoreData.sleeping core) 0); [contradiction|reflexivity].
  - intros -> ->. reflexivity.
Qed.

(** A NaN value under a positive limit makes the percentage raise. *)
Lemma bar_percent_nan (value limit : c_float) :
  is_nan (get value) = true → gt (get limit) (of_Z 0) = true →
  bar_percent value limit = Raise ValueError.
Proof.
  intros Hnan Hgt. unfold bar_percent. rewrite Hgt.
  destruct (get value); try discriminate.
  destruct (get limit) as [s|s| |s m e]; try discriminate; reflexivity.
Qed.


(** C2. A limit at or below zero gives the percentage 0 without
    dividing, for each of PPT, TDC, EDC and THM: the PPT bar stands at
    0 after the tick, and so does any other guarded bar once the tick
    has run to its end; with all four limits at or below zero the tick
    raises nothing and all four bars stand at 0; with a limit of 0 and
    45.2 W drawn the PPT bar is at 0 and the label reads "45.2 / 0 W". *)
Theorem nonpositive_limit_bar (self : t) (w w' : World) (l : RyzenMonitorLib.t)
    (cores : list CoreData.t) (c : ConstraintsData.t)
    (m : option MemoryData.t) (p : option PowerData.t)
    (g : option GraphicsData.t) (st : option CalculatedStats.t) :
  RyzenMonitorLib.read_data (lib self) max_cores_default w
    = (Ok (Some cores, Some c, m, p, g, st), l, w') →
  (0 < length cores)%nat →
  (∀ value limit, le (get limit) (of_Z 0) = true → bar_percent value limit = Ok 0) ∧
  (le (get (ConstraintsData.ppt_limit c)) (of_Z 0) = true →
     bars (after_update self w) ppt_bar = 0) ∧
  (∀ b, (update_data self w).1.1 = Ok tt →
        le (get (limit_of b c)) (of_Z 0) = true →
        bars (after_update self w) b = 0) ∧
  (le (get (ConstraintsData.ppt_limit c)) (of_Z 0) = true →
   le (get (ConstraintsData.tdc_limit c)) (of_Z 0) = true →
   le (get (ConstraintsData.edc_limit c)) (of_Z 0) = true →
   le (get (ConstraintsData.thm_limit c)) (of_Z 0) = true →
     (update_data self w).1.1 = Ok tt ∧ ∀ b, bars (after_update self w) b = 0) ∧
  (ConstraintsData.ppt_limit c = S754_zero false →
   ConstraintsData.ppt_value c = Sample.f32 452 10 →
     bars (after_update self w) ppt_bar = 0 ∧
     labels (after_update self w) ppt_value = "45.2 / 0 W").
Proof.
  intros Hread Hlen. unfold after_update.
  rewrite (update_data_accepted _ _ _ _ _ _ _ _ _ _ Hread (nonempty _ Hlen)). simpl.
  destruct (render_constraints self cores c m p g st)
    as (self2 & _ & Hbars & Hlab & Hres).
  split; [exact bar_percent_guard|]. split; [|split; [|split]].
  - intros Hp. rewrite Hbars. apply update_constraints_ppt, Hp.
  - intros b Hok Hle. rewrite Hbars. apply update_constraints_bar; [|exact Hle].
    rewrite <- Hres. exact Hok.
  - intros Hp Ht He Hm.
    destruct (update_constraints_guarded c self2 Hp Ht He Hm) as [Hok Hall].
    rewrite Hres, Hbars. split; [exact Hok|exact Hall].
  - intros Hlim Hval.
    assert (Hp : le (get (ConstraintsData.ppt_limit c)) (of_Z 0) = true)
      by (rewrite Hlim; reflexivity).
    destruct (update_constraints_ppt c self2 Hp) as [Hb Hl].
    rewrite Hbars, Hlab, Hl, Hlim, Hval. split; [exact Hb|reflexivity].
Qed.

(** C3. When the library reports no cores the tick changes nothing:
    the table, every label and every bar are those of the previous
    cycle. *)
Theorem no_data_keeps_previous (self : t) (h : CDLL) (w : World) :
  RyzenMonitorLib.lib (lib self) = Some h →
  RyzenMonitorLib.initialized (lib self) = true →
  num_cores (ryzen_read_data h w max_cores_default) ≤ 0 →
  update_data self w = (Ok tt, self, w ++ [ryzen_read_data_call max_cores_default]) ∧
  core_table (after_update self w) = core_table self ∧
  labels (after_update self w) = labels self ∧
  bars (after_update self w) = bars self.
Proof.
  intros Hlib Hinit Hn.
  assert (Hupd : update_data self w =
                 (Ok tt, self, w ++ [ryzen_read_data_call max_cores_default])).
  { unfold update_data.
    rewrite (read_data_no_cores (lib self) h max_cores_default w Hlib Hinit
               ltac:(unfold max_cores_default; lia) Hn).
    destruct self as [ls tb lb bs]. reflexivity. }
  unfold after_update. rewrite Hupd. repeat split; reflexivity.
Qed.

(** C4. Seven of the eight aggregate labels print a NaN as "nan";
    only the package CC6 label falls back to "--". *)
Theorem nan_aggregates_rendered :
  map (labels (after_update (Sample.window Sample.nan_stats_library) []))
      [peak_freq_value; peak_temp_value; peak_volt_value; avg_volt_value;
       avg_cc6_value; total_core_power_value; smu_peak_volt_value; pkg_cc6_value]
  = ["nan MHz"; "nan °C"; "nan V"; "nan V"; "nan %"; "nan W"; "nan V"; "--"].
Proof. vm_compute. reflexivity. Qed.

(** C5. A NaN package power under a positive limit makes the tick
    raise ValueError, after the table and the statistics were
    written and before any constraint bar is. *)
Theorem nan_constraint_raises :
  (update_data (Sample.window Sample.nan_ppt_library) []).1.1 = Raise ValueError ∧
  bars (after_update (Sample.window Sample.nan_ppt_library) []) ppt_bar = -1 ∧
  labels (after_update (Sample.window Sample.nan_ppt_library) []) ppt_value = "--".
Proof. vm_compute. repeat split; reflexivity. Qed.

(** C9. A core flagged both disabled and sleeping shows "Disabled";
    "Sleeping" appears exactly when the core sleeps and is not
    disabled. *)
Theorem disabled_before_sleeping (self : t) (w w' : World) (l : RyzenMonitorLib.t)
    (cores : list CoreData.t) (c : option ConstraintsData.t)
    (m : option MemoryData.t) (p : option PowerData.t)
    (g : option GraphicsData.t) (st : option CalculatedStats.t) :
  RyzenMonitorLib.read_data (lib self) max_cores_default w
    = (Ok (Some cores, c, m, p, g, st), l, w') →
  (0 < length cores)%nat →
  ∀ i core, cores !! i = Some core →
    ∃ text, cell (after_update self w) i frequency_column = Some text ∧
      (CoreData.disabled core ≠ 0 → CoreData.sleeping core ≠ 0 → text = "Disabled") ∧
      (text = "Sleeping" ↔ CoreData.disabled core = 0 ∧ CoreData.sleeping core ≠ 0).
Proof.
  intros Hread Hlen i core Hi.
  destruct (update_data_table _ _ _ _ _ _ _ _ _ _ Hread (nonempty _ Hlen)) as [_ Hcell].
  exists (status core). split; [apply Hcell, Hi|].
  destruct (status_cases core) as (Hd & Hs & Hf).
  split; [intros H _; apply Hd, H|]. split.
  - intros Htext.
    destruct (Z.eq_dec (CoreData.disabled core) 0) as [H0|H0].
    + split; [exact H0|]. intros H1. rewrite (Hf H0 H1) in Htext.
      revert Htext. apply fixed0_not_word. vm_compute. lia.
    + rewrite (Hd H0) in Htext. discriminate.
  - intros [H0 H1]. apply Hs; assumption.
Qed.

End Display.

(** ** The statements at the sample machine *)

Section OnTheSample.
Import Float RyzenMonitorGUI.


Lemma nonpositive_limit_bar_sample :
  (update_data Sample.machine []).1.1 = Ok tt ∧
  (∀ b, bars (after_update Sample.machine []) b = 0) ∧
  labels (after_update Sample.machine []) ppt_value = "45.2 / 0 W".
Proof.
  destruct (nonpositive_limit_bar Sample.machine [] Sample.after_read
              (Sample.reader Sample.library) Sample.cores
              Sample.constraints (Some MemoryData.zero) (Some PowerData.zero)
              (Some GraphicsData.zero) (Some CalculatedStats.zero))
    as (_ & _ & _ & Hall & Hppt).
  - reflexivity.
  - simpl. lia.
  - destruct Hall as [Hok Hbars]; try reflexivity.
    destruct Hppt as [_ Hlabel]; try reflexivity.
    split; [exact Hok|]. split; [exact Hbars|exact Hlabel].
Defined.

Lemma no_data_keeps_previous_sample :
  update_data (Sample.window Sample.failing) []
    = (Ok tt, Sample.window Sample.failing, Sample.after_read).
Proof.
  apply (no_data_keeps_previous (Sample.window Sample.failing) Sample.failing []).
  - reflexivity.
  - reflexivity.
  - simpl. lia.
Defined.

Lemma disabled_before_sleeping_sample :
  ∃ text, cell (after_update Sample.machine []) 5 frequency_column = Some text ∧
    (CoreData.disabled Sample.both_flags ≠ 0 →
     CoreData.sleeping Sample.both_flags ≠ 0 → text = "Disabled") ∧
    (text = "Sleeping" ↔
     CoreData.disabled Sample.both_flags = 0 ∧ CoreData.sleeping Sample.both_flags ≠ 0).
Proof.
  apply (disabled_before_sleeping Sample.machine [] Sample.after_read
           (Sample.reader Sample.library) Sample.cores
           (Some Sample.constraints) (Some MemoryData.zero) (Some PowerData.zero)
           (Some GraphicsData.zero) (Some CalculatedStats.zero)
           eq_refl ltac:(simpl; lia) 5%nat Sample.both_flags).
  reflexivity.
Defined.

Lemma cleanup_twice_sample :
  ∃ s1 w1,
    RyzenMonitorLib.cleanup (Sample.reader Sample.library) [] = (Ok tt, s1, w1) ∧
    RyzenMonitorLib.cleanup s1 w1 = (Ok tt, s1, w1) ∧
    RyzenMonitorLib.initialized s1 = false ∧
    cleanup_calls w1 = 1%nat.
Proof.
  apply (cleanup_twice (Sample.reader Sample.library) []). reflexivity.
Defined.


Lemma uninitialized_reader_sample :
  RyzenMonitorLib.get_system_info (RyzenMonitorLib.mk (Some Sample.library) false) []
    = (Ok None, RyzenMonitorLib.mk (Some Sample.library) false, []).
Proof.
  apply (uninitialized_reader (RyzenMonitorLib.mk (Some Sample.library) false) []).
  reflexivity.
Defined.

Lemma read_data_at_most_max_cores_sample :
  Z.of_nat (length (take 4 Sample.cores)) ≤ 4.
Proof.
  apply (read_data_at_most_max_cores (Sample.reader Sample.library) 4 []
           (take 4 Sample.cores) (Some Sample.constraints) (Some MemoryData.zero)
           (Some PowerData.zero) (Some GraphicsData.zero) (Some CalculatedStats.zero)
           (Sample.reader Sample.library) [ryzen_read_data_call 4]).
  reflexivity.
Defined.

(** The scenario of eight cores, two of them disabled: eight rows, and
    "Disabled" whatever the frequency field of a disabled core holds. *)
Example sample_frequency_column :
  rowCount (core_table (after_update Sample.machine [])) = 8%nat ∧
  map (λ i, cell (after_update Sample.machine []) i frequency_column) (seq 0 8)
  = [Some "3600"; Some "4200"; Some "Disabled"; Some "Sleeping";
     Some "2"; Some "Disabled"; Some "4"; Some "3000"].
Proof. vm_compute. split; reflexivity. Qed.

End OnTheSample.

(** ** More on the reader: call sequences *)

Section ReaderRuns.
Import RyzenMonitorLib.

Lemma protocol_snoc (h : CDLL) (w : World) (c : ffi_call) :
  protocol h (w ++ [c]) = protocol_step h (protocol h w) c.
Proof. unfold protocol. rewrite foldl_app. reflexivity. Qed.

Lemma call_protocol (h : CDLL) (m : method) (self : t) (w : World) :
  keeps_handle m = true →
  lib self = Some h →
  protocol h w = Some (w, initialized self) →
  lib (call m self w).1 = Some h ∧
  protocol h (call m self w).2 = Some ((call m self w).2, initialized (call m self w).1).
Proof.
  intros Hm Hlib Hp. destruct self as [l i]. simpl in *. subst l.
  destruct m as [env| | | |n]; simpl in *; try discriminate.
  - unfold init. simpl. destruct (ryzen_init h w =? 0) eqn:Hrc; simpl;
      (split; [reflexivity|]); rewrite protocol_snoc, Hp; simpl; rewrite Hrc; reflexivity.
  - unfold cleanup. simpl. destruct i; simpl; (split; [reflexivity|]).
    + rewrite protocol_snoc, Hp. reflexivity.
    + exact Hp.
  - unfold get_system_info. simpl. destruct i; simpl.
    + destruct (ryzen_get_system_info h w) as [rc sd]. simpl.
      split; [reflexivity|]. rewrite protocol_snoc, Hp. reflexivity.
    + split; [reflexivity|exact Hp].
  - unfold read_data. simpl. destruct i; simpl.
    + destruct (n <? 0); simpl; [split; [reflexivity|exact Hp]|].
      destruct (0 <? num_cores (ryzen_read_data h w n)); simpl;
        (split; [reflexivity|]); rewrite protocol_snoc, Hp; reflexivity.
    + split; [reflexivity|exact Hp].
Qed.

(** X1. However [init], [cleanup], [get_system_info] and [read_data]
    are interleaved on a loaded reader, the wrapper's flag always
    equals the library's own state, and no cleanup, system-info or
    read call ever reaches a library that is not open: each is
    preceded by a [ryzen_init] that returned 0 with no cleanup in
    between. *)
Theorem reader_follows_protocol (h : CDLL) (ms : list method) :
  forallb keeps_handle ms = true →
  lib (run ms (mk (Some h) false) []).1 = Some h ∧
  protocol h (run ms (mk (Some h) false) []).2
    = Some ((run ms (mk (Some h) false) []).2,
            initialized (run ms (mk (Some h) false) []).1).
Proof.
  assert (Hgen : ∀ ms self w,
             forallb keeps_handle ms = true → lib self = Some h →
             protocol h w = Some (w, initialized self) →
             lib (run ms self w).1 = Some h ∧
             protocol h (run ms self w).2
               = Some ((run ms self w).2, initialized (run ms self w).1)).
  { clear ms. induction ms as [|m ms IH]; intros self w Hall Hlib Hp; simpl in *.
    - split; assumption.
    - apply andb_true_iff in Hall as [Hm Hall].
      destruct (call_protocol h m self w Hm Hlib Hp) as [Hlib' Hp'].
      destruct (call m self w) as [s w']. apply IH; assumption. }
  intros Hall. apply Hgen; [exact Hall|reflexivity|reflexivity].
Qed.

End ReaderRuns.

Section ReaderCalls.
Import RyzenMonitorLib.

(** X2. Polling is read-only on the reader: [get_system_info] and
    [read_data] return the reader as they found it, whatever the
    library answers, and each adds at most one call to the history. *)
Theorem polling_keeps_reader (self : t) (max_cores : Z) (w : World) :
  (get_system_info self w).1.2 = self ∧
  (read_data self max_cores w).1.2 = self ∧
  ((get_system_info self w).2 = w ∨
   (get_system_info self w).2 = w ++ [ryzen_get_system_info_call]) ∧
  ((read_data self max_cores w).2 = w ∨
   (read_data self max_cores w).2 = w ++ [ryzen_read_data_call max_cores]).
Proof.
  unfold get_system_info, read_data.
  destruct (initialized self); simpl; [|auto].
  destruct (lib self) as [h|]; simpl.
  - destruct (ryzen_get_system_info h w) as [rc sd]. simpl.
    destruct (max_cores <? 0); simpl; [auto|].
    destruct (0 <? num_cores _); simpl; auto.
  - destruct (max_cores <? 0); simpl; auto.
Qed.


(** X4. The records handed back are the ones the library wrote, in
    order; a slot the library counted but did not write comes back as
    a zero-filled record. *)
Theorem read_data_records (self : t) (max_cores : Z) (w : World)
    (cores : list CoreData.t) (c : option ConstraintsData.t)
    (m : option MemoryData.t) (p : option PowerData.t)
    (g : option GraphicsData.t) (st : option CalculatedStats.t)
    (s : t) (w' : World) :
  read_data self max_cores w = (Ok (Some cores, c, m, p, g, st), s, w') →
  ∃ h, lib self = Some h ∧
    ∀ i, (i < length cores)%nat →
      cores !! i =
        Some (default CoreData.zero (cores_out (ryzen_read_data h w max_cores) !! i)).
Proof.
  unfold read_data. destruct (negb (initialized self)); [discriminate|].
  destruct (max_cores <? 0) eqn:Hneg; [discriminate|].
  destruct (lib self) as [h|]; [|discriminate].
  destruct (0 <? num_cores (ryzen_read_data h w max_cores)) eqn:Hn; [|discriminate].
  intros [= <- _ _ _ _ _ _ _]. exists h. split; [reflexivity|].
  intros i Hi. rewrite length_take, length_buffer in Hi.
  rewrite lookup_take_lt by lia. unfold buffer.
  set (written := cores_out (ryzen_read_data h w max_cores)).
  destruct (written !! i) as [x|] eqn:Hx; simpl.
  - rewrite lookup_resize; [exact Hx|lia|]. apply lookup_lt_Some in Hx. exact Hx.
  - apply lookup_ge_None in Hx. rewrite lookup_resize_new; [reflexivity| |]; lia.
Qed.

End ReaderCalls.

(** ** More on the display refresh: the tick as a whole *)

Section Tick.
Import Float RyzenMonitorGUI.

Ltac lib_frame :=
  repeat first
    [ apply preserves_bind; [|intros ?]
    | apply preserves_when_present; intros ?
    | apply preserves_ret
    | apply preserves_eval
    | intros ?; reflexivity
    | intros ?; unfold setValue; destruct (QProgressBar_setValue _ _); reflexivity ].

Lemma render_lib (self : t) (cores : list CoreData.t)
    (c : option ConstraintsData.t) (m : option MemoryData.t)
    (p : option PowerData.t) (g : option GraphicsData.t)
    (st : option CalculatedStats.t) :
  lib (render cores c m p g st self).2 = lib self.
Proof.
  destruct (update_core_table_spec cores self) as (its & Htab & _).
  assert (Hrest : preserves lib
            (when_present st update_stats ;;
             when_present c update_constraints ;;
             when_present m update_memory ;;
             when_present p update_power ;;
             when_present g update_graphics)).
  { unfold update_stats, update_constraints, update_memory, update_power,
      update_graphics. lib_frame. }
  unfold render. rewrite (bind_ok _ _ _ _ _ Htab). rewrite Hrest. reflexivity.
Qed.

Lemma update_data_trace (self : t) (w : World) :
  wf (lib self) = true →
  (update_data self w).2
    = w ++ (if RyzenMonitorLib.initialized (lib self)
            then [ryzen_read_data_call 32] else []) ∧
  lib (after_update self w) = lib self.
Proof.
  intros Hwf. unfold wf in Hwf. unfold after_update, update_data.
  unfold RyzenMonitorLib.read_data in *.
  destruct (RyzenMonitorLib.initialized (lib self)); simpl in *.
  - destruct (RyzenMonitorLib.lib (lib self)) as [h|]; [|discriminate].
    destruct (0 <? num_cores _); simpl.
    + destruct (take _ _) as [|x cores]; simpl; [split; reflexivity|].
      destruct (render _ _ _ _ _ _ _) as [r self'] eqn:Hr. simpl.
      split; [reflexivity|].
      pose proof (render_lib (mk (lib self) (core_table self) (labels self) (bars self))
                    (x :: cores) (Some (constraints_out (ryzen_read_data h w max_cores_default)))
                    (Some (memory_out (ryzen_read_data h w max_cores_default)))
                    (Some (power_out (ryzen_read_data h w max_cores_default)))
                    (Some (graphics_out (ryzen_read_data h w max_cores_default)))
                    (Some (stats_out (ryzen_read_data h w max_cores_default)))) as Hlib.
      rewrite Hr in Hlib. exact Hlib.
    + split; reflexivity.
  - rewrite app_nil_r. split; reflexivity.
Qed.

(** X5. A tick costs the library exactly one [ryzen_read_data] call
    with a buffer of 32 when the reader is initialized, whether the
    rendering completes or raises; on a reader that is not initialized
    it is a no-op that makes no call; and it never changes the
    reader's handle or flag. *)
Theorem tick_reads_once (self : t) (w : World) :
  wf (lib self) = true →
  (update_data self w).2
    = w ++ (if RyzenMonitorLib.initialized (lib self)
            then [ryzen_read_data_call 32] else []) ∧
  lib (after_update self w) = lib self ∧
  (RyzenMonitorLib.initialized (lib self) = false →
   update_data self w = (Ok tt, self, w)).
Proof.
  intros Hwf. destruct (update_data_trace self w Hwf) as [Hw Hl].
  split; [exact Hw|]. split; [exact Hl|].
  intros Hoff. unfold update_data, RyzenMonitorLib.read_data. rewrite Hoff. simpl.
  destruct self as [ls tb lb bs]. reflexivity.
Qed.

Lemma bar_percent_failure (value limit : c_float) (e : exn) :
  bar_percent value limit = Raise e → numeric_failure e = true.
Proof.
  unfold bar_percent, truediv.
  destruct (gt (get limit) (of_Z 0)) eqn:Hgt; [|discriminate].
  destruct (is_zero (get limit)) eqn:Hz.
  { destruct (get limit) as [s|s| |s m e']; discriminate. }
  destruct (mul _ _) as [s|s| |s m' e']; simpl; try discriminate;
    intros [= <-]; reflexivity.
Qed.

Lemma numeric_bind {A B} (m : M A) (f : A → M B) :
  raises_only_numeric m → (∀ a, raises_only_numeric (f a)) →
  raises_only_numeric (m ≫= f).
Proof.
  intros Hm Hf self e. unfold mbind, M_bind. specialize (Hm self).
  destruct (m self) as [[a|e'] self']; simpl in *.
  - apply Hf.
  - intros [= <-]. apply Hm. reflexivity.
Qed.

Lemma numeric_succeeds (m : M unit) : succeeds m → raises_only_numeric m.
Proof. intros Hm self e He. rewrite Hm in He. discriminate. Qed.

Lemma numeric_eval (value limit : c_float) :
  raises_only_numeric (eval (bar_percent value limit)).
Proof. intros self e. simpl. apply bar_percent_failure. Qed.

Lemma numeric_setValue (b : Bar) (v : Z) : raises_only_numeric (setValue b v).
Proof.
  intros self e. unfold setValue, QProgressBar_setValue.
  destruct (_ || _); simpl; [intros [= <-]; reflexivity|].
  destruct (_ && _); discriminate.
Qed.

Lemma update_constraints_numeric (c : ConstraintsData.t) :
  raises_only_numeric (update_constraints c).
Proof.
  unfold update_constraints.
  repeat first
    [ apply numeric_bind; [|intros ?]
    | apply numeric_eval
    | apply numeric_setValue
    | apply numeric_succeeds, succeeds_setText ].
Qed.

Lemma render_numeric (cores : list CoreData.t)
    (c : option ConstraintsData.t) (m : option MemoryData.t)
    (p : option PowerData.t) (g : option GraphicsData.t)
    (st : option CalculatedStats.t) :
  raises_only_numeric (render cores c m p g st).
Proof.
  unfold render.
  apply numeric_bind; [|intros ?; repeat (apply numeric_bind; [|intros ?])].
  - intros self e He. destruct (update_core_table_spec cores self) as (its & Htab & _).
    rewrite Htab in He. discriminate.
  - apply numeric_succeeds, succeeds_when_present, update_stats_succeeds.
  - destruct c; simpl; [apply update_constraints_numeric|].
    intros self e He. discriminate.
  - apply numeric_succeeds, succeeds_when_present, update_memory_succeeds.
  - apply numeric_succeeds, succeeds_when_present, update_power_succeeds.
  - apply numeric_succeeds, succeeds_when_present, update_graphics_succeeds.
Qed.

(** X6. On a well-formed reader a tick either completes or raises
    ValueError or OverflowError, from the arithmetic of a progress
    bar; it never raises ZeroDivisionError or AttributeError, whatever
    the library returns. *)
Theorem tick_failure_modes (self : t) (w : World) (e : exn) :
  wf (lib self) = true →
  (update_data self w).1.1 = Raise e →
  e = ValueError ∨ e = OverflowError.
Proof.
  intros Hwf He.
  assert (Hnum : numeric_failure e = true).
  { unfold wf in Hwf. unfold update_data, RyzenMonitorLib.read_data in He.
    destruct (RyzenMonitorLib.initialized (lib self)); simpl in He; [|discriminate].
    destruct (RyzenMonitorLib.lib (lib self)) as [h|]; [|discriminate].
    destruct (0 <? num_cores _); simpl in He; [|discriminate].
    destruct (take _ _) as [|x cores]; [discriminate|].
    destruct (render _ _ _ _ _ _ _) as [r self'] eqn:Hr. simpl in He. subst r.
    eapply render_numeric. rewrite Hr. reflexivity. }
  destruct e; try discriminate; auto.
Qed.

Ltac label_frame :=
  repeat first
    [ apply preserves_bind; [|intros ?]
    | apply preserves_ret
    | apply preserves_eval
    | apply setValue_label
    | apply setText_other; discriminate ].

Lemma update_stats_late (st : CalculatedStats.t) (lab : Label) :
  written_after_constraints lab = true →
  preserves (λ self, labels self lab) (update_stats st).
Proof. intros Hl. unfold update_stats. destruct lab; try discriminate; label_frame. Qed.

Lemma update_constraints_late (c : ConstraintsData.t) (lab : Label) :
  written_after_constraints lab = true →
  preserves (λ self, labels self lab) (update_constraints c).
Proof.
  intros Hl. unfold update_constraints. destruct lab; try discriminate; label_frame.
Qed.

(** X7. A tick that raises leaves the window half refreshed: the core
    table already has the new row count, while every label of the
    memory, power and graphics groups still shows the text of the
    cycle before. *)
Theorem failed_tick_is_partial (self : t) (w w' : World) (l : RyzenMonitorLib.t)
    (cores : list CoreData.t) (c : ConstraintsData.t)
    (m : option MemoryData.t) (p : option PowerData.t)
    (g : option GraphicsData.t) (st : option CalculatedStats.t) (e : exn) :
  RyzenMonitorLib.read_data (lib self) max_cores_default w
    = (Ok (Some cores, Some c, m, p, g, st), l, w') →
  (0 < length cores)%nat →
  (update_data self w).1.1 = Raise e →
  rowCount (core_table (after_update self w)) = length cores ∧
  ∀ lab, written_after_constraints lab = true →
         labels (after_update self w) lab = labels self lab.
Proof.
  intros Hread Hlen He.
  destruct (update_data_table _ _ _ _ _ _ _ _ _ _ Hread (nonempty _ Hlen)) as [Hrows _].
  split; [exact Hrows|]. intros lab Hlab. unfold after_update.
  rewrite (update_data_accepted _ _ _ _ _ _ _ _ _ _ Hread (nonempty _ Hlen)) in *.
  simpl in *.
  destruct (update_core_table_spec cores self) as (its & Htab & _).
  set (self1 := mk (lib self) {| rowCount := length cores; items := its |}
                   (labels self) (bars self)) in *.
  destruct (when_present st update_stats self1) as [r2 self2] eqn:Hst.
  assert (Hr2 : r2 = Ok tt).
  { pose proof (succeeds_when_present st update_stats update_stats_succeeds self1) as H.
    rewrite Hst in H. exact H. }
  assert (Hl2 : labels self2 lab = labels self lab).
  { pose proof (preserves_when_present (λ s, labels s lab) st update_stats
                  (λ a, update_stats_late a lab Hlab) self1) as H.
    rewrite Hst in H. exact H. }
  subst r2. unfold render in *.
  rewrite (bind_ok _ _ _ _ _ Htab), (bind_ok _ _ _ _ _ Hst) in *. simpl in *.
  pose proof (update_constraints_late c lab Hlab self2) as Hl3.
  destruct (update_constraints c self2) as [[[]|e'] self3] eqn:Hc.
  - rewrite (bind_ok _ _ _ _ _ Hc) in He.
    assert (Htail : succeeds (when_present m update_memory ;;
                              when_present p update_power ;;
                              when_present g update_graphics)).
    { repeat first [ apply succeeds_bind; [|intros ?]
                   | apply succeeds_when_present; intros ?
                   | apply succeeds_setText ]. }
    rewrite Htail in He. discriminate.
  - rewrite (bind_raise _ _ _ _ _ Hc). simpl in *. rewrite Hl3. exact Hl2.
Qed.

(** The loop writes no row at or beyond [i + len(cores)]. *)
Lemma for_enumerate_beyond (cores : list CoreData.t) :
  ∀ (i : nat) (self : t),
    (i + length cores ≤ rowCount (core_table self))%nat →
    ∀ r c, (i + length cores ≤ r)%nat →
      items (core_table (for_enumerate core_row i cores self).2) !! (r, c)
        = items (core_table self) !! (r, c).
Proof.
  induction cores as [|x cores IH]; intros i self Hlen r c Hr; simpl in *.
  - reflexivity.
  - destruct (core_row_inside self i x ltac:(lia)) as (its1 & Hrow & Hother & _).
    rewrite (bind_ok _ _ _ _ _ Hrow).
    rewrite (IH (S i) (with_items self its1)) by (simpl; lia).
    simpl. apply Hother. lia.
Qed.

Lemma update_core_table_beyond (cores : list CoreData.t) (self : t) (r c : nat) :
  (length cores ≤ r)%nat →
  items (core_table (update_core_table cores self).2) !! (r, c) = None.
Proof.
  intros Hr. unfold update_core_table, setRowCount.
  erewrite bind_ok by reflexivity.
  rewrite for_enumerate_beyond by (simpl; lia). simpl.
  apply map_lookup_filter_None. right. intros x _. simpl. lia.
Qed.

(** X8. After a tick on an accepted snapshot the table holds exactly
    the snapshot: row [i] shows, left to right, "Core n", the status,
    power and voltage with three decimals, temperature and the three
    residencies with one; and no item of an earlier, longer snapshot
    survives in a row at or beyond the new row count. *)
Theorem table_shows_snapshot (self : t) (w w' : World) (l : RyzenMonitorLib.t)
    (cores : list CoreData.t) (c : option ConstraintsData.t)
    (m : option MemoryData.t) (p : option PowerData.t)
    (g : option GraphicsData.t) (st : option CalculatedStats.t) :
  RyzenMonitorLib.read_data (lib self) max_cores_default w
    = (Ok (Some cores, c, m, p, g, st), l, w') →
  (0 < length cores)%nat →
  (∀ i core, cores !! i = Some core →
     map (cell (after_update self w) i) (seq 0 8) =
       [ Some ("Core " +:+ Format.int (CoreData.core_num core));
         Some (status core);
         Some (Format.fixed 3 (get (CoreData.power core)));
         Some (Format.fixed 3 (get (CoreData.voltage core)));
         Some (Format.fixed 1 (get (CoreData.temp core)));
         Some (Format.fixed 1 (get (CoreData.c0 core)));
         Some (Format.fixed 1 (get (CoreData.cc1 core)));
         Some (Format.fixed 1 (get (CoreData.cc6 core))) ]) ∧
  (∀ r col, (length cores ≤ r)%nat → cell (after_update self w) r col = None).
Proof.
  intros Hread Hlen. unfold after_update, cell.
  rewrite (update_data_accepted _ _ _ _ _ _ _ _ _ _ Hread (nonempty _ Hlen)). simpl.
  split.
  - intros i core Hi.
    destruct (render_table self cores c m p g st) as [_ Hrows].
    simpl. rewrite !(Hrows i core _ Hi) by (unfold columnCount; lia). reflexivity.
  - intros r col Hr.
    assert (Hrest : preserves core_table
              (when_present st update_stats ;;
               when_present c update_constraints ;;
               when_present m update_memory ;;
               when_present p update_power ;;
               when_present g update_graphics)).
    { repeat first [ apply preserves_bind; [|intros ?]
                   | apply preserves_when_present; intros ?
                   | apply preserves_eval
                   | apply setText_table | apply setValue_table ]. }
    destruct (update_core_table_spec cores self) as (its & Htab & _).
    pose proof (update_core_table_beyond cores self r col Hr) as Hnone.
    unfold render. rewrite (bind_ok _ _ _ _ _ Htab), Hrest.
    rewrite Htab in Hnone. exact Hnone.
Qed.

Lemma update_constraints_stats (c : ConstraintsData.t) (lab : Label) :
  lab ∈ [peak_freq_value; peak_temp_value; peak_volt_value; avg_volt_value;
         avg_cc6_value; total_core_power_value; smu_peak_volt_value; pkg_cc6_value] →
  preserves (λ self, labels self lab) (update_constraints c).
Proof.
  intros Hl. unfold update_constraints.
  repeat (apply elem_of_cons in Hl as [->|Hl]; [label_frame|]).
  apply elem_of_nil in Hl. contradiction.
Qed.

Lemma tail_stats (m : option MemoryData.t) (p : option PowerData.t)
    (g : option GraphicsData.t) (lab : Label) :
  lab ∈ [peak_freq_value; peak_temp_value; peak_volt_value; avg_volt_value;
         avg_cc6_value; total_core_power_value; smu_peak_volt_value; pkg_cc6_value] →
  preserves (λ self, labels self lab)
    (when_present m update_memory ;; when_present p update_power ;;
     when_present g update_graphics).
Proof.
  intros Hl. unfold update_memory, update_power, update_graphics.
  repeat (apply elem_of_cons in Hl as [->|Hl];
          [repeat first [ apply preserves_bind; [|intros ?]
                        | apply preserves_when_present; intros ?
                        | apply setText_other; discriminate ]|]).
  apply elem_of_nil in Hl. contradiction.
Qed.

(** X9. On every accepted snapshot the eight statistics labels show
    the aggregates as formatted, also when the tick raises later on:
    frequency without decimals, temperature and CC6 with one, voltages
    and power with three, each with its unit; the package CC6 label
    shows "--" exactly for a NaN. *)
Theorem statistics_labels (self : t) (w w' : World) (l : RyzenMonitorLib.t)
    (cores : list CoreData.t) (c : option ConstraintsData.t)
    (m : option MemoryData.t) (p : option PowerData.t)
    (g : option GraphicsData.t) (st : CalculatedStats.t) :
  RyzenMonitorLib.read_data (lib self) max_cores_default w
    = (Ok (Some cores, c, m, p, g, Some st), l, w') →
  (0 < length cores)%nat →
  map (labels (after_update self w))
      [peak_freq_value; peak_temp_value; peak_volt_value; avg_volt_value;
       avg_cc6_value; total_core_power_value; smu_peak_volt_value; pkg_cc6_value]
  = [ Format.fixed 0 (get (CalculatedStats.peak_core_frequency st)) +:+ " MHz";
      Format.fixed 1 (get (CalculatedStats.peak_core_temp st)) +:+ " °C";
      Format.fixed 3 (get (CalculatedStats.peak_core_voltage st)) +:+ " V";
      Format.fixed 3 (get (CalculatedStats.avg_core_voltage st)) +:+ " V";
      Format.fixed 1 (get (CalculatedStats.avg_core_cc6 st)) +:+ " %";
      Format.fixed 3 (get (CalculatedStats.total_core_power st)) +:+ " W";
      Format.fixed 3 (get (CalculatedStats.peak_core_voltage_smu st)) +:+ " V";
      if is_nan (get (CalculatedStats.package_cc6 st)) then "--"
      else Format.fixed 1 (get (CalculatedStats.package_cc6 st)) +:+ " %" ].
Proof.
  intros Hread Hlen. unfold after_update.
  rewrite (update_data_accepted _ _ _ _ _ _ _ _ _ _ Hread (nonempty _ Hlen)). simpl.
  destruct (update_core_table_spec cores self) as (its & Htab & _).
  set (self1 := mk (lib self) {| rowCount := length cores; items := its |}
                   (labels self) (bars self)) in *.
  set (labs := [peak_freq_value; peak_temp_value; peak_volt_value; avg_volt_value;
                avg_cc6_value; total_core_power_value; smu_peak_volt_value;
                pkg_cc6_value]).
  assert (Hkeep : ∀ lab, lab ∈ labs →
            labels (render cores c m p g (Some st) self).2 lab
              = labels (update_stats st self1).2 lab).
  { intros lab Hlab. unfold render.
    rewrite (bind_ok _ _ _ _ _ Htab). cbv beta.
    set (self2 := (update_stats st self1).2).
    assert (Hst : when_present (Some st) update_stats self1 = (Ok tt, self2))
      by reflexivity.
    rewrite (bind_ok _ _ _ _ _ Hst). cbv beta.
    pose proof (tail_stats m p g lab Hlab) as Htail.
    destruct c as [c|].
    - pose proof (update_constraints_stats c lab Hlab self2) as Hc.
      change (when_present (Some c) update_constraints) with (update_constraints c).
      destruct (update_constraints c self2) as [[[]|e] self3] eqn:Hcs;
        cbn [snd] in Hc.
      + rewrite (bind_ok _ _ _ _ _ Hcs), Htail. exact Hc.
      + rewrite (bind_raise _ _ _ _ _ Hcs). exact Hc.
    - erewrite bind_ok by reflexivity. rewrite Htail. reflexivity. }
  assert (Hall : Forall (λ lab, lab ∈ labs) labs)
    by (apply Forall_forall; intros; assumption).
  unfold labs in Hall at 2.
  repeat (apply Forall_cons in Hall as [?%Hkeep Hall]).
  simpl. repeat match goal with H : labels _ _ = _ |- _ => rewrite H; clear H end.
  simpl. rewrite ne_self. destruct (is_nan _); reflexivity.
Qed.

Ltac run_step Hok :=
  match type of Hok with
  | ((?m ≫= ?f) ?s).1 = Ok tt =>
      let E := fresh "E" in
      destruct (m s) as [[?|?] ?] eqn:E;
      [ rewrite (bind_ok _ _ _ _ _ E) in Hok |- *; cbv beta in Hok |- *
      | rewrite (bind_raise _ _ _ _ _ E) in Hok; discriminate Hok ]
  end.

Lemma written_label (l : Label) (s : string) (k : M unit) (self : t) :
  preserves (λ self, labels self l) k →
  labels ((setText l s ≫= λ _, k) self).2 l = s.
Proof.
  intros Hk. erewrite bind_ok by reflexivity. rewrite Hk. simpl.
  apply fn_lookup_insert.
Qed.

(** The five labels of the constraints group once the block has run
    to its end. *)
Lemma update_constraints_labels (c : ConstraintsData.t) (self : t) :
  (update_constraints c self).1 = Ok tt →
  map (labels (update_constraints c self).2)
      [peak_temp_con_value; ppt_value; tdc_value; edc_value; thm_value]
  = [ Format.fixed 1 (get (ConstraintsData.peak_temp c)) +:+ " °C";
      bar_text (ConstraintsData.ppt_value c) (ConstraintsData.ppt_limit c) "W";
      bar_text (ConstraintsData.tdc_value c) (ConstraintsData.tdc_limit c) "A";
      bar_text (ConstraintsData.edc_value c) (ConstraintsData.edc_limit c) "A";
      bar_text (ConstraintsData.thm_value c) (ConstraintsData.thm_limit c) "C" ].
Proof.
  intros Hok. simpl. repeat f_equal.
  - unfold update_constraints. apply written_label. label_frame.
  - unfold update_constraints in *. do 3 run_step Hok.
    apply written_label. label_frame.
  - unfold update_constraints in *. do 6 run_step Hok.
    apply written_label. label_frame.
  - unfold update_constraints in *. do 9 run_step Hok.
    apply written_label. label_frame.
  - unfold update_constraints in *. do 12 run_step Hok.
    simpl. apply fn_lookup_insert.
Qed.

Lemma tail_constraints (m : option MemoryData.t) (p : option PowerData.t)
    (g : option GraphicsData.t) (lab : Label) :
  lab ∈ [peak_temp_con_value; ppt_value; tdc_value; edc_value; thm_value] →
  preserves (λ self, labels self lab)
    (when_present m update_memory ;; when_present p update_power ;;
     when_present g update_graphics).
Proof.
  intros Hl. unfold update_memory, update_power, update_graphics.
  repeat (apply elem_of_cons in Hl as [->|Hl];
          [repeat first [ apply preserves_bind; [|intros ?]
                        | apply preserves_when_present; intros ?
                        | apply setText_other; discriminate ]|]).
  apply elem_of_nil in Hl. contradiction.
Qed.

(** X10. A tick that completes leaves no stale text in the
    constraints, memory, power and graphics groups: each of their
    fifteen labels shows its field of the snapshot in the format of
    the source ("value / limit unit" for the four budgets, "ON" or
    "OFF" for the coupled mode). *)
Theorem completed_tick_labels (self : t) (w w' : World) (l : RyzenMonitorLib.t)
    (cores : list CoreData.t) (c : ConstraintsData.t) (m : MemoryData.t)
    (p : PowerData.t) (g : GraphicsData.t) (st : option CalculatedStats.t) :
  RyzenMonitorLib.read_data (lib self) max_cores_default w
    = (Ok (Some cores, Some c, Some m, Some p, Some g, st), l, w') →
  (0 < length cores)%nat →
  (update_data self w).1.1 = Ok tt →
  map (labels (after_update self w))
      [peak_temp_con_value; ppt_value; tdc_value; edc_value; thm_value;
       fclk_value; fclk_eff_value; uclk_value; memclk_value; coupled_value;
       socket_power_value; core_power_value; soc_power_value;
       gfx_clk_value; gfx_temp_value]
  = [ Format.fixed 1 (get (ConstraintsData.peak_temp c)) +:+ " °C";
      bar_text (ConstraintsData.ppt_value c) (ConstraintsData.ppt_limit c) "W";
      bar_text (ConstraintsData.tdc_value c) (ConstraintsData.tdc_limit c) "A";
      bar_text (ConstraintsData.edc_value c) (ConstraintsData.edc_limit c) "A";
      bar_text (ConstraintsData.thm_value c) (ConstraintsData.thm_limit c) "C";
      Format.fixed 0 (get (MemoryData.fclk_freq m)) +:+ " MHz";
      Format.fixed 0 (get (MemoryData.fclk_freq_eff m)) +:+ " MHz";
      Format.fixed 0 (get (MemoryData.uclk_freq m)) +:+ " MHz";
      Format.fixed 0 (get (MemoryData.memclk_freq m)) +:+ " MHz";
      if MemoryData.coupled_mode m =? 0 then "OFF" else "ON";
      Format.fixed 3 (get (PowerData.socket_power p)) +:+ " W";
      Format.fixed 3 (get (PowerData.total_core_power p)) +:+ " W";
      Format.fixed 3 (get (PowerData.vddcr_soc_power p)) +:+ " W";
      Format.fixed 0 (get (GraphicsData.gfx_freq g)) +:+ " MHz";
      Format.fixed 1 (get (GraphicsData.gfx_temp g)) +:+ " °C" ].
Proof.
  intros Hread Hlen Hok. unfold after_update.
  rewrite (update_data_accepted _ _ _ _ _ _ _ _ _ _ Hread (nonempty _ Hlen)) in *.
  cbn [fst snd] in *.
  destruct (update_core_table_spec cores self) as (its & Htab & _).
  set (self1 := mk (lib self) {| rowCount := length cores; items := its |}
                   (labels self) (bars self)) in *.
  destruct (when_present st update_stats self1) as [r2 self2] eqn:Hst.
  assert (Hr2 : r2 = Ok tt).
  { pose proof (succeeds_when_present st update_stats update_stats_succeeds self1) as H.
    rewrite Hst in H. exact H. }
  subst r2. unfold render in *.
  rewrite (bind_ok _ _ _ _ _ Htab), (bind_ok _ _ _ _ _ Hst) in *. cbv beta in *.
  change (when_present (Some c) update_constraints) with (update_constraints c) in *.
  pose proof (update_constraints_labels c self2) as Hcl.
  destruct (update_constraints c self2) as [[[]|e] self3] eqn:Hc.
  2: { rewrite (bind_raise _ _ _ _ _ Hc) in Hok. discriminate. }
  rewrite (bind_ok _ _ _ _ _ Hc) in *. cbv beta in *.
  specialize (Hcl eq_refl). cbn [snd] in Hcl.
  set (tail := when_present (Some m) update_memory ;;
               when_present (Some p) update_power ;;
               when_present (Some g) update_graphics) in *.
  assert (Hfront : map (labels (tail self3).2)
                     [peak_temp_con_value; ppt_value; tdc_value; edc_value; thm_value]
                   = map (labels self3)
                       [peak_temp_con_value; ppt_value; tdc_value; edc_value; thm_value]).
  { apply map_ext_in. intros lab Hin. apply list_elem_of_In in Hin.
    apply (tail_constraints (Some m) (Some p) (Some g) lab Hin). }
  change (map (labels (tail self3).2) ?ls) with
    (map (labels (tail self3).2)
       [peak_temp_con_value; ppt_value; tdc_value; edc_value; thm_value]
     ++ map (labels (tail self3).2)
       [fclk_value; fclk_eff_value; uclk_value; memclk_value; coupled_value;
        socket_power_value; core_power_value; soc_power_value;
        gfx_clk_value; gfx_temp_value]).
  rewrite Hfront, Hcl. simpl. unfold truthy.
  destruct (MemoryData.coupled_mode m =? 0); reflexivity.
Qed.







Lemma binary_round_aux_sign (prec emax : Z) (s : bool) (m e : Z) (l : location) :
  match binary_round_aux prec emax s m e l with
  | S754_zero s' | S754_infinity s' | S754_finite s' _ _ => s' = s
  | S754_nan => True
  end.
Proof.
  unfold binary_round_aux.
  destruct (shr_fexp prec emax m e l) as [mrs' e'].
  destruct (shr_fexp prec emax _ e' loc_Exact) as [mrs'' e''].
  destruct (shr_m mrs''); [reflexivity| |exact I].
  destruct (e'' <=? emax - prec); reflexivity.
Qed.

Lemma to_int_sign (x : py_float) (v : Z) :
  to_int x = Ok v →
  (sign_bit x = false → 0 ≤ v) ∧ (sign_bit x = true → v ≤ 0).
Proof.
  destruct x as [s|s| |s m e]; simpl; try discriminate.
  - intros [= <-]. split; lia.
  - intros [= <-]. pose proof (Z.shiftl_nonneg (Z.pos m) e) as H.
    assert (0 ≤ Z.shiftl (Z.pos m) e) by (apply H; lia).
    split; intros ->; lia.
Qed.

Lemma percent_sign (value limit : py_float) :
  gt limit (of_Z 0) = true →
  match mul (SFdiv prec64 emax64 value limit) (of_Z 100) with
  | S754_zero s | S754_infinity s | S754_finite s _ _ => s = sign_bit value
  | S754_nan => True
  end.
Proof.
  intros Hgt.
  assert (Hl : sign_bit limit = false ∧ is_nan limit = false ∧ is_zero limit = false).
  { destruct limit as [s|s| |s m e]; try discriminate; destruct s; try discriminate;
      repeat split. }
  destruct Hl as (Hs & Hn & Hz).
  assert (Hq : match SFdiv prec64 emax64 value limit with
               | S754_zero s | S754_infinity s | S754_finite s _ _ => s = sign_bit value
               | S754_nan => True
               end).
  { destruct value as [sv|sv| |sv mv ev], limit as [sl|sl| |sl ml el];
      simpl in *; try discriminate; subst; try exact I;
      try (destruct sv; reflexivity).
    destruct (SFdiv_core_binary _ _ _ _ _ _) as [[mz ez] lz].
    rewrite xorb_false_r. apply binary_round_aux_sign. }
  replace (of_Z 100) with (S754_finite false 7036874417766400 (-46)) by reflexivity.
  unfold mul. destruct (SFdiv prec64 emax64 value limit) as [s|s| |s m e];
    simpl; try exact I; try (rewrite xorb_false_r; exact Hq).
  rewrite xorb_false_r. subst s. apply binary_round_aux_sign.
Qed.

(** X19. The percentage of a bar never has the wrong sign: a reading
    whose sign bit is clear gives a percentage of at least 0, a
    negative reading one of at most 0, for every limit. *)
Theorem bar_percent_sign (value limit : c_float) (v : Z) :
  bar_percent value limit = Ok v →
  (sign_bit (get value) = false → 0 ≤ v) ∧
  (sign_bit (get value) = true → v ≤ 0).
Proof.
  unfold bar_percent, truediv.
  destruct (gt (get limit) (of_Z 0)) eqn:Hgt.
  2: { intros [= <-]. split; lia. }
  destruct (is_zero (get limit)); [discriminate|].
  intros Hv. pose proof (percent_sign (get value) (get limit) Hgt) as Hs.
  pose proof (to_int_sign _ _ Hv) as Hi.
  destruct (mul _ _) as [s|s| |s m e]; simpl in *; try discriminate; subst s; exact Hi.
Qed.

End Tick.

(** ** System information, startup and shutdown *)

Section Lifecycle.
Import MainWindow.

Lemma ascii_utf8 (s : string) : ascii_only s = true → utf8_valid s = true.
Proof.
  unfold ascii_only. induction s as [|c s IH]; simpl; [reflexivity|].
  intros H. apply andb_true_iff in H as [Hc Hs]. apply N.ltb_lt in Hc.
  assert (Hb : between 0 127 c = true).
  { unfold between. apply andb_true_iff. split; apply N.leb_le; lia. }
  rewrite Hb. apply IH, Hs.
Qed.

Lemma decode_ascii (field : string) :
  ascii_only (c_string field) = true → decode field = Done (c_string field).
Proof. intros H. unfold decode. rewrite (ascii_utf8 _ H). reflexivity. Qed.

(** X12. With a fetched record whose three text fields are plain ASCII
    up to their terminating NUL, [update_system_info] succeeds and the
    four labels read "CPU: name", "Codename: name", "Cores: n / CCDs:
    m" and "SMU: vversion", each text cut at its first NUL; nothing
    else of the window changes. *)
Theorem update_system_info_ascii (self : t) (sd : SystemData.t) :
  sysdata self = Some sd →
  ascii_only (c_string (SystemData.cpu_name sd)) = true →
  ascii_only (c_string (SystemData.codename sd)) = true →
  ascii_only (c_string (SystemData.smu_fw_ver sd)) = true →
  (update_system_info self).1 = Done tt ∧
  map (system_labels (update_system_info self).2)
      [cpu_label; codename_label; cores_label; smu_label]
  = [ "CPU: " +:+ c_string (SystemData.cpu_name sd);
      "Codename: " +:+ c_string (SystemData.codename sd);
      "Cores: " +:+ Format.int (SystemData.enabled_cores_count sd)
        +:+ " / CCDs: " +:+ Format.int (SystemData.ccds sd);
      "SMU: v" +:+ c_string (SystemData.smu_fw_ver sd) ] ∧
  gui (update_system_info self).2 = gui self ∧
  timer_active (update_system_info self).2 = timer_active self.
Proof.
  intros Hsd Hcpu Hcode Hsmu. unfold update_system_info. rewrite Hsd.
  rewrite (decode_ascii _ Hcpu), (decode_ascii _ Hcode), (decode_ascii _ Hsmu).
  repeat split; reflexivity.
Qed.

(** X13. [update_system_info] can fail only with UnicodeDecodeError,
    and does so exactly when a text field is not well-formed UTF-8.
    The labels are written in order up to the first such field: an
    undecodable CPU name leaves all four labels untouched, and the SMU
    label is never written by a failing call. *)
Theorem update_system_info_failure (self : t) (sd : SystemData.t) :
  sysdata self = Some sd →
  let valid field := utf8_valid (c_string field) in
  ((update_system_info self).1 = Done tt ↔
     valid (SystemData.cpu_name sd) && valid (SystemData.codename sd)
       && valid (SystemData.smu_fw_ver sd) = true) ∧
  (∀ f, (update_system_info self).1 = Failed f →
        f = UnicodeDecodeError ∧
        system_labels (update_system_info self).2 smu_label
          = system_labels self smu_label) ∧
  (valid (SystemData.cpu_name sd) = false →
     update_system_info self = (Failed UnicodeDecodeError, self)).
Proof.
  intros Hsd valid. unfold update_system_info, decode. rewrite Hsd. subst valid.
  cbv beta.
  destruct (utf8_valid (c_string (SystemData.cpu_name sd)));
    destruct (utf8_valid (c_string (SystemData.codename sd)));
    destruct (utf8_valid (c_string (SystemData.smu_fw_ver sd))); simpl;
    (split; [split; (discriminate || reflexivity)|]);
    (split; [intros f Hf; try discriminate Hf; injection Hf as <-;
             split; reflexivity
            |intros H; (discriminate H || reflexivity)]).
Qed.

Lemma init_started (h : CDLL) (w : World) :
  ryzen_init h w = 0 →
  RyzenMonitorLib.init (RyzenMonitorLib.mk (Some h) false) w
    = (Ok true, RyzenMonitorLib.mk (Some h) true, w ++ [ryzen_init_call]).
Proof. intros H. unfold RyzenMonitorLib.init. simpl. rewrite H. reflexivity. Qed.

Lemma init_refused (h : CDLL) (w : World) :
  ryzen_init h w ≠ 0 →
  RyzenMonitorLib.init (RyzenMonitorLib.mk (Some h) false) w
    = (Ok false, RyzenMonitorLib.mk (Some h) false, w ++ [ryzen_init_call]).
Proof.
  intros H. unfold RyzenMonitorLib.init. simpl.
  destruct (Z.eqb_spec (ryzen_init h w) 0); [contradiction|reflexivity].
Qed.

(** X14. Startup ends in [sys.exit(1)] exactly when the library did not
    load or its init returned non-zero.  One dialog is then shown, and
    the library has seen nothing (load failure) or the single init call
    (init failure): no system-info, read or cleanup call is made. *)
Theorem startup_exit (env : option CDLL) (w : World) :
  ((∃ code, (__init__ env w).1.1 = Failed (SystemExit code)) ↔
     env = None ∨ ∃ h, env = Some h ∧ ryzen_init h w ≠ 0) ∧
  (env = None →
     __init__ env w = (Failed (SystemExit 1), [LoadFailedDialog], w)) ∧
  (∀ h, env = Some h → ryzen_init h w ≠ 0 →
     __init__ env w
       = (Failed (SystemExit 1), [InitFailedDialog], w ++ [ryzen_init_call])).
Proof.
  split; [|split].
  - destruct env as [h|]; unfold __init__; simpl.
    + destruct (Z.eq_dec (ryzen_init h w) 0) as [H0|H0].
      * rewrite (init_started h w H0). unfold RyzenMonitorLib.get_system_info. simpl.
        destruct (ryzen_get_system_info h _) as [rc sd]. simpl.
        split.
        -- intros [code Hc]. exfalso.
           destruct (rc =? 0); simpl in Hc; [|discriminate Hc].
           unfold update_system_info, decode in Hc. simpl in Hc.
           repeat (destruct (utf8_valid _) in Hc; simpl in Hc; try discriminate Hc).
        -- intros [Hn|(h' & [= <-] & Hne)]; [discriminate|contradiction].
      * rewrite (init_refused h w H0). split; [|eauto].
        intros _. right. exists h. split; [reflexivity|exact H0].
    + split; [intros _; left; reflexivity|eauto].
  - intros ->. reflexivity.
  - intros h -> Hne. unfold __init__. simpl. rewrite (init_refused h w Hne). reflexivity.
Qed.

Lemma startup_window_facts (h : CDLL) (win : t) (shown : list dialog) (w0 : World) :
  __init__ (Some h) [] = (Done win, shown, w0) →
  ryzen_init h [] = 0 ∧
  w0 = [ryzen_init_call; ryzen_get_system_info_call] ∧
  timer_active win = true ∧
  gui win = RyzenMonitorGUI.init_ui (RyzenMonitorLib.mk (Some h) true).
Proof.
  unfold __init__; simpl.
  destruct (Z.eq_dec (ryzen_init h []) 0) as [H0|H0].
  2: { rewrite (init_refused h [] H0). discriminate. }
  rewrite (init_started h [] H0). unfold RyzenMonitorLib.get_system_info. simpl.
  destruct (ryzen_get_system_info h [ryzen_init_call]) as [rc sd]. simpl.
  destruct (rc =? 0); simpl.
  - destruct (update_system_info _) as [[[]|f] self'] eqn:Hu; [|discriminate].
    intros [= <- <- <-].
    unfold update_system_info, decode in Hu. simpl in Hu.
    repeat (destruct (utf8_valid _) in Hu; simpl in Hu; try discriminate Hu).
    injection Hu as <-. simpl. repeat split; try reflexivity; exact H0.
  - intros [= <- <- <-]. simpl. repeat split; try reflexivity; exact H0.
Qed.

(** X15. A window that comes out of [__init__] is polling an open
    library: the library loaded, its init returned 0, exactly the init
    and the system-info call were made and no dialog was shown; the
    timer runs, the reader is initialized, the table is empty, every
    value label reads "--", and [sysdata] is the fetched record, or
    [None] with the system labels still at "Loading..." when the fetch
    returned non-zero. *)
Theorem startup_window (env : option CDLL) (w w' : World)
    (win : t) (shown : list dialog) :
  __init__ env w = (Done win, shown, w') →
  ∃ h, env = Some h ∧ ryzen_init h w = 0 ∧
    shown = [] ∧
    w' = w ++ [ryzen_init_call; ryzen_get_system_info_call] ∧
    timer_active win = true ∧
    gui win = RyzenMonitorGUI.init_ui (RyzenMonitorLib.mk (Some h) true) ∧
    sysdata win =
      (if (ryzen_get_system_info h (w ++ [ryzen_init_call])).1 =? 0
       then Some (ryzen_get_system_info h (w ++ [ryzen_init_call])).2 else None) ∧
    (sysdata win = None → ∀ l, system_labels win l = init_ui_system l).
Proof.
  destruct env as [h|]; unfold __init__; simpl; [|discriminate].
  destruct (Z.eq_dec (ryzen_init h w) 0) as [H0|H0].
  2: { rewrite (init_refused h w H0). discriminate. }
  rewrite (init_started h w H0). unfold RyzenMonitorLib.get_system_info. simpl.
  destruct (ryzen_get_system_info h (w ++ [ryzen_init_call])) as [rc sd] eqn:Hg.
  simpl. rewrite <- app_assoc. simpl.
  destruct (rc =? 0) eqn:Hrc; simpl.
  - destruct (update_system_info _) as [[[]|f] self'] eqn:Hu; [|discriminate].
    intros [= <- <- <-]. exists h. rewrite Hg. simpl. rewrite Hrc.
    unfold update_system_info, decode in Hu. simpl in Hu.
    repeat (destruct (utf8_valid _) in Hu; simpl in Hu; try discriminate Hu).
    injection Hu as <-. simpl.
    repeat split; try reflexivity; try exact H0. discriminate.
  - intros [= <- <- <-]. exists h. rewrite Hg. simpl. rewrite Hrc.
    repeat split; try reflexivity; exact H0.
Qed.

(** X16. Startup never cleans up: after [__init__] on a fresh process
    the library is open exactly when its init returned 0.  A startup
    that fails on undecodable system information therefore leaves the
    library initialized, with no window left to close it. *)
Theorem startup_leaves_library_open (h : CDLL) :
  protocol h (__init__ (Some h) []).2
    = Some ((__init__ (Some h) []).2, ryzen_init h [] =? 0) ∧
  cleanup_calls (__init__ (Some h) []).2 = 0%nat ∧
  ((__init__ (Some h) []).1.1 = Failed UnicodeDecodeError → ryzen_init h [] = 0).
Proof.
  unfold __init__. simpl.
  destruct (Z.eq_dec (ryzen_init h []) 0) as [H0|H0].
  - rewrite (init_started h [] H0). unfold RyzenMonitorLib.get_system_info. simpl.
    destruct (ryzen_get_system_info h [ryzen_init_call]) as [rc sd]. simpl.
    assert (Hp : protocol h [ryzen_init_call; ryzen_get_system_info_call]
                 = Some ([ryzen_init_call; ryzen_get_system_info_call], true)).
    { unfold protocol. simpl. rewrite H0. reflexivity. }
    rewrite H0. simpl.
    destruct (rc =? 0); simpl.
    + destruct (update_system_info _) as [[[]|f] self']; simpl;
        (split; [exact Hp|split; [reflexivity|intros _; reflexivity]]).
    + split; [exact Hp|split; [reflexivity|intros _; reflexivity]].
  - rewrite (init_refused h [] H0). simpl.
    destruct (Z.eqb_spec (ryzen_init h []) 0) as [|_]; [contradiction|].
    split; [|split; [reflexivity|discriminate]].
    unfold protocol. simpl.
    destruct (Z.eqb_spec (ryzen_init h []) 0); [contradiction|reflexivity].
Qed.

Lemma ticks_stopped (n : nat) (self : t) (w : World) :
  timer_active self = false → ticks n self w = (Ok tt, self, w).
Proof.
  intros Hoff. induction n as [|n IH]; simpl; [reflexivity|].
  unfold timeout. rewrite Hoff. exact IH.
Qed.

(** X17. [closeEvent] on a window over a well-formed reader is
    accepted, stops the timer and lowers the reader's flag, calling
    the library's cleanup once if the reader was initialized and not at
    all otherwise; the widgets keep their contents.  Afterwards no
    tick reaches the library, and closing again changes nothing. *)
Theorem close_stops_polling (self : t) (w : World) :
  wf (RyzenMonitorGUI.lib (gui self)) = true →
  ∃ self' w',
    closeEvent self w = (Ok true, self', w') ∧
    w' = w ++ (if RyzenMonitorLib.initialized (RyzenMonitorGUI.lib (gui self))
               then [ryzen_cleanup_call] else []) ∧
    timer_active self' = false ∧
    RyzenMonitorLib.initialized (RyzenMonitorGUI.lib (gui self')) = false ∧
    RyzenMonitorGUI.core_table (gui self') = RyzenMonitorGUI.core_table (gui self) ∧
    RyzenMonitorGUI.labels (gui self') = RyzenMonitorGUI.labels (gui self) ∧
    RyzenMonitorGUI.bars (gui self') = RyzenMonitorGUI.bars (gui self) ∧
    system_labels self' = system_labels self ∧
    (∀ n, ticks n self' w' = (Ok tt, self', w')) ∧
    closeEvent self' w' = (Ok true, self', w').
Proof.
  intros Hwf. unfold wf in Hwf. unfold closeEvent at 1, RyzenMonitorLib.cleanup.
  destruct self as [[[l i] tb lb bs] sl sd ta]. simpl in *.
  destruct i; simpl.
  - destruct l as [h|]; [|discriminate]. eexists _, _.
    split; [reflexivity|]. repeat split; try reflexivity.
    intros n. apply ticks_stopped. reflexivity.
  - eexists _, _. split; [reflexivity|]. rewrite app_nil_r.
    repeat split; try reflexivity.
    intros n. apply ticks_stopped. reflexivity.
Qed.

Lemma ticks_trace (h : CDLL) (n : nat) :
  ∀ (self : t) (w : World) (r : result unit) (self' : t) (w' : World),
    timer_active self = true →
    RyzenMonitorGUI.lib (gui self) = RyzenMonitorLib.mk (Some h) true →
    ticks n self w = (r, self', w') →
    timer_active self' = true ∧
    RyzenMonitorGUI.lib (gui self') = RyzenMonitorLib.mk (Some h) true ∧
    ∃ k, (k ≤ n)%nat ∧
      w' = w ++ replicate k (ryzen_read_data_call 32) ∧
      (r = Ok tt → k = n).
Proof.
  induction n as [|n IH]; intros self w r self' w' Hon Hlib Hrun; simpl in Hrun.
  - injection Hrun as <- <- <-. split; [exact Hon|]. split; [exact Hlib|].
    exists 0%nat. simpl. rewrite app_nil_r.
    split; [lia|]. split; [reflexivity|intros _; reflexivity].
  - unfold timeout in Hrun. rewrite Hon in Hrun.
    destruct (update_data_trace (gui self) w) as [Hw Hl].
    { rewrite Hlib. reflexivity. }
    unfold after_update in Hl. rewrite Hlib in Hw, Hl. simpl in Hw.
    destruct (RyzenMonitorGUI.update_data (gui self) w) as [[r1 g1] w1].
    simpl in Hw, Hl. subst w1.
    destruct r1 as [[]|e].
    + apply IH in Hrun as (Hon' & Hlib' & k & Hk & Hw' & Hr);
        [|reflexivity|exact Hl].
      split; [exact Hon'|]. split; [exact Hlib'|].
      exists (S k). split; [lia|]. split.
      * rewrite Hw', <- app_assoc. reflexivity.
      * intros Hok. rewrite (Hr Hok). reflexivity.
    + injection Hrun as <- <- <-. simpl. split; [reflexivity|]. split; [exact Hl|].
      exists 1%nat. split; [lia|]. split; [reflexivity|discriminate].
Qed.

Lemma protocol_reads (h : CDLL) (base : World) (k : nat) (max_cores : Z) :
  protocol h base = Some (base, true) →
  protocol h (base ++ replicate k (ryzen_read_data_call max_cores))
    = Some (base ++ replicate k (ryzen_read_data_call max_cores), true).
Proof.
  intros Hbase. induction k as [|k IH].
  - simpl. rewrite app_nil_r. exact Hbase.
  - rewrite replicate_S_end, app_assoc, protocol_snoc, IH. reflexivity.
Qed.

(** X18. A whole session keeps to the library's protocol: after a
    successful [__init__] on a fresh process, up to [n] ticks and
    [closeEvent], the library has seen the init call, the system-info
    call, one read per tick that ran (all [n] if none raised) and a
    final cleanup, in this order and nothing else; it is closed at the
    end. *)
Theorem session_trace (h : CDLL) (n : nat) (win win' : t) (shown : list dialog)
    (w0 w1 : World) (r : result unit) :
  __init__ (Some h) [] = (Done win, shown, w0) →
  ticks n win w0 = (r, win', w1) →
  ∃ k win'',
    (k ≤ n)%nat ∧ (r = Ok tt → k = n) ∧
    closeEvent win' w1 =
      (Ok true, win'',
       [ryzen_init_call; ryzen_get_system_info_call]
         ++ replicate k (ryzen_read_data_call 32) ++ [ryzen_cleanup_call]) ∧
    protocol h ([ryzen_init_call; ryzen_get_system_info_call]
                  ++ replicate k (ryzen_read_data_call 32) ++ [ryzen_cleanup_call])
      = Some ([ryzen_init_call; ryzen_get_system_info_call]
                ++ replicate k (ryzen_read_data_call 32) ++ [ryzen_cleanup_call],
              false) ∧
    timer_active win'' = false.
Proof.
  intros Hstart Hticks.
  destruct (startup_window_facts h win shown w0 Hstart) as (H0 & -> & Hon & Hgui).
  assert (Hlib : RyzenMonitorGUI.lib (gui win) = RyzenMonitorLib.mk (Some h) true)
    by (rewrite Hgui; reflexivity).
  destruct (ticks_trace h n _ _ _ _ _ Hon Hlib Hticks)
    as (Hon' & Hlib' & k & Hk & -> & Hr).
  exists k. unfold closeEvent, RyzenMonitorLib.cleanup.
  destruct win' as [g' sl' sd' ta']. simpl in *. rewrite Hlib'. simpl.
  eexists. split; [exact Hk|]. split; [exact Hr|].
  split; [reflexivity|]. split; [|reflexivity].
  assert (Hbase : protocol h [ryzen_init_call; ryzen_get_system_info_call]
                  = Some ([ryzen_init_call; ryzen_get_system_info_call], true)).
  { unfold protocol. simpl. rewrite H0. reflexivity. }
  pose proof (protocol_reads h _ k 32 Hbase) as Hreads.
  pose proof (protocol_snoc h ([ryzen_init_call; ryzen_get_system_info_call]
                                 ++ replicate k (ryzen_read_data_call 32))
                ryzen_cleanup_call) as Hsnoc.
  rewrite Hreads in Hsnoc. exact Hsnoc.
Qed.

End Lifecycle.

(** ** The further statements at the sample machines *)

Section OnTheBench.
Import Float RyzenMonitorGUI.

Lemma reader_follows_protocol_bench :
  RyzenMonitorLib.lib
    (run Bench.script (RyzenMonitorLib.mk (Some Sample.library) false) []).1
    = Some Sample.library ∧
  protocol Sample.library
    (run Bench.script (RyzenMonitorLib.mk (Some Sample.library) false) []).2
    = Some ((run Bench.script (RyzenMonitorLib.mk (Some Sample.library) false) []).2,
            RyzenMonitorLib.initialized
              (run Bench.script (RyzenMonitorLib.mk (Some Sample.library) false) []).1).
Proof. apply (reader_follows_protocol Sample.library Bench.script). reflexivity. Defined.


Lemma read_data_records_sample :
  ∃ h, RyzenMonitorLib.lib (Sample.reader Sample.library) = Some h ∧
    ∀ i, (i < length Sample.cores)%nat →
      Sample.cores !! i =
        Some (default CoreData.zero (cores_out (ryzen_read_data h [] 32) !! i)).
Proof.
  apply (read_data_records (Sample.reader Sample.library) 32 [] Sample.cores
           (Some Sample.constraints) (Some MemoryData.zero) (Some PowerData.zero)
           (Some GraphicsData.zero) (Some CalculatedStats.zero)
           (Sample.reader Sample.library) [ryzen_read_data_call 32]).
  reflexivity.
Defined.

Lemma tick_reads_once_sample :
  (update_data Sample.machine []).2 = [ryzen_read_data_call 32] ∧
  lib (after_update Sample.machine []) = lib Sample.machine ∧
  (RyzenMonitorLib.initialized (lib Sample.machine) = false →
   update_data Sample.machine [] = (Ok tt, Sample.machine, [])).
Proof. apply (tick_reads_once Sample.machine []). reflexivity. Defined.

Lemma tick_failure_modes_sample : ValueError = ValueError ∨ ValueError = OverflowError.
Proof.
  apply (tick_failure_modes (Sample.window Sample.nan_ppt_library) [] ValueError).
  - reflexivity.
  - vm_compute. reflexivity.
Defined.

Lemma failed_tick_is_partial_sample :
  rowCount (core_table (after_update (Sample.window Sample.nan_ppt_library) [])) = 8%nat ∧
  ∀ lab, written_after_constraints lab = true →
         labels (after_update (Sample.window Sample.nan_ppt_library) []) lab = "--".
Proof.
  apply (failed_tick_is_partial (Sample.window Sample.nan_ppt_library) []
           Sample.after_read (Sample.reader Sample.nan_ppt_library) Sample.cores
           Sample.nan_ppt (Some MemoryData.zero) (Some PowerData.zero)
           (Some GraphicsData.zero) (Some CalculatedStats.zero) ValueError).
  - reflexivity.
  - simpl. lia.
  - vm_compute. reflexivity.
Defined.

Lemma table_shows_snapshot_sample :
  map (cell (after_update Sample.machine []) 5) (seq 0 8) =
    [ Some "Core 5"; Some "Disabled"; Some "1.234"; Some "1.100";
      Some "45.5"; Some "0.0"; Some "0.0"; Some "0.0" ].
Proof.
  apply (proj1 (table_shows_snapshot Sample.machine [] Sample.after_read
                  (Sample.reader Sample.library) Sample.cores
                  (Some Sample.constraints) (Some MemoryData.zero) (Some PowerData.zero)
                  (Some GraphicsData.zero) (Some CalculatedStats.zero)
                  eq_refl ltac:(simpl; lia)) 5%nat Sample.both_flags).
  reflexivity.
Defined.

Lemma statistics_labels_sample :
  map (labels (after_update (Sample.window Sample.nan_stats_library) []))
      [peak_freq_value; peak_temp_value; peak_volt_value; avg_volt_value;
       avg_cc6_value; total_core_power_value; smu_peak_volt_value; pkg_cc6_value]
  = ["nan MHz"; "nan °C"; "nan V"; "nan V"; "nan %"; "nan W"; "nan V"; "--"].
Proof.
  apply (statistics_labels (Sample.window Sample.nan_stats_library) []
           Sample.after_read (Sample.reader Sample.nan_stats_library) Sample.cores
           (Some Sample.constraints) (Some MemoryData.zero) (Some PowerData.zero)
           (Some GraphicsData.zero) Sample.nan_stats).
  - reflexivity.
  - simpl. lia.
Defined.

Lemma completed_tick_labels_sample :
  map (labels (after_update Sample.machine []))
      [peak_temp_con_value; ppt_value; tdc_value; edc_value; thm_value;
       fclk_value; fclk_eff_value; uclk_value; memclk_value; coupled_value;
       socket_power_value; core_power_value; soc_power_value;
       gfx_clk_value; gfx_temp_value]
  = [ "61.0 °C"; "45.2 / 0 W"; "0.0 / 0 A"; "0.0 / 0 A"; "0.0 / 0 C";
      "0 MHz"; "0 MHz"; "0 MHz"; "0 MHz"; "OFF";
      "0.000 W"; "0.000 W"; "0.000 W"; "0 MHz"; "0.0 °C" ].
Proof.
  apply (completed_tick_labels Sample.machine [] Sample.after_read
           (Sample.reader Sample.library) Sample.cores
           Sample.constraints MemoryData.zero PowerData.zero
           GraphicsData.zero (Some CalculatedStats.zero)).
  - reflexivity.
  - simpl. lia.
  - vm_compute. reflexivity.
Defined.


Lemma bar_percent_sign_sample :
  (sign_bit (get (Sample.f32 452 10)) = false → 0 ≤ 45) ∧
  (sign_bit (get (Sample.f32 452 10)) = true → 45 ≤ 0).
Proof.
  apply (bar_percent_sign (Sample.f32 452 10) (Sample.f32 100 1) 45).
  vm_compute. reflexivity.
Defined.

Lemma update_system_info_ascii_bench :
  (MainWindow.update_system_info Bench.fetched).1 = MainWindow.Done tt ∧
  map (MainWindow.system_labels (MainWindow.update_system_info Bench.fetched).2)
      [MainWindow.cpu_label; MainWindow.codename_label;
       MainWindow.cores_label; MainWindow.smu_label]
  = [ "CPU: AMD Ryzen 9 5950X 16-Core Processor"; "Codename: Vermeer";
      "Cores: 16 / CCDs: 2"; "SMU: v56.53.0" ] ∧
  MainWindow.gui (MainWindow.update_system_info Bench.fetched).2
    = MainWindow.gui Bench.fetched ∧
  MainWindow.timer_active (MainWindow.update_system_info Bench.fetched).2
    = MainWindow.timer_active Bench.fetched.
Proof.
  apply (update_system_info_ascii Bench.fetched Bench.sysdata); reflexivity.
Defined.

Lemma update_system_info_failure_bench :
  (MainWindow.update_system_info Bench.fetched).1 = MainWindow.Done tt ↔
    MainWindow.utf8_valid (MainWindow.c_string (SystemData.cpu_name Bench.sysdata))
    && MainWindow.utf8_valid (MainWindow.c_string (SystemData.codename Bench.sysdata))
    && MainWindow.utf8_valid (MainWindow.c_string (SystemData.smu_fw_ver Bench.sysdata))
    = true.
Proof.
  apply (update_system_info_failure Bench.fetched Bench.sysdata). reflexivity.
Defined.

Lemma startup_window_bench :
  ∃ h, Some Bench.library = Some h ∧ ryzen_init h [] = 0 ∧
    @nil MainWindow.dialog = [] ∧
    [ryzen_init_call; ryzen_get_system_info_call]
      = [] ++ [ryzen_init_call; ryzen_get_system_info_call] ∧
    MainWindow.timer_active Bench.started = true ∧
    MainWindow.gui Bench.started
      = RyzenMonitorGUI.init_ui (RyzenMonitorLib.mk (Some h) true) ∧
    MainWindow.sysdata Bench.started =
      (if (ryzen_get_system_info h ([] ++ [ryzen_init_call])).1 =? 0
       then Some (ryzen_get_system_info h ([] ++ [ryzen_init_call])).2 else None) ∧
    (MainWindow.sysdata Bench.started = None →
     ∀ l, MainWindow.system_labels Bench.started l = MainWindow.init_ui_system l).
Proof.
  apply (startup_window (Some Bench.library) []
           [ryzen_init_call; ryzen_get_system_info_call] Bench.started []).
  reflexivity.
Defined.

Lemma close_stops_polling_bench :
  ∃ self' w',
    MainWindow.closeEvent Bench.started [] = (Ok true, self', w') ∧
    w' = [] ++ (if RyzenMonitorLib.initialized
                     (RyzenMonitorGUI.lib (MainWindow.gui Bench.started))
                then [ryzen_cleanup_call] else []) ∧
    MainWindow.timer_active self' = false ∧
    RyzenMonitorLib.initialized (RyzenMonitorGUI.lib (MainWindow.gui self')) = false ∧
    RyzenMonitorGUI.core_table (MainWindow.gui self')
      = RyzenMonitorGUI.core_table (MainWindow.gui Bench.started) ∧
    RyzenMonitorGUI.labels (MainWindow.gui self')
      = RyzenMonitorGUI.labels (MainWindow.gui Bench.started) ∧
    RyzenMonitorGUI.bars (MainWindow.gui self')
      = RyzenMonitorGUI.bars (MainWindow.gui Bench.started) ∧
    MainWindow.system_labels self' = MainWindow.system_labels Bench.started ∧
    (∀ n, MainWindow.ticks n self' w' = (Ok tt, self', w')) ∧
    MainWindow.closeEvent self' w' = (Ok true, self', w').
Proof. apply (close_stops_polling Bench.started []). reflexivity. Defined.

Lemma session_trace_bench :
  ∃ k win'',
    (k ≤ 3)%nat ∧
    ((MainWindow.ticks 3 Bench.started
        [ryzen_init_call; ryzen_get_system_info_call]).1.1 = Ok tt → k = 3%nat) ∧
    MainWindow.closeEvent
      (MainWindow.ticks 3 Bench.started
         [ryzen_init_call; ryzen_get_system_info_call]).1.2
      (MainWindow.ticks 3 Bench.started
         [ryzen_init_call; ryzen_get_system_info_call]).2 =
      (Ok true, win'',
       [ryzen_init_call; ryzen_get_system_info_call]
         ++ replicate k (ryzen_read_data_call 32) ++ [ryzen_cleanup_call]) ∧
    protocol Bench.library
      ([ryzen_init_call; ryzen_get_system_info_call]
         ++ replicate k (ryzen_read_data_call 32) ++ [ryzen_cleanup_call])
      = Some ([ryzen_init_call; ryzen_get_system_info_call]
                ++ replicate k (ryzen_read_data_call 32) ++ [ryzen_cleanup_call],
              false) ∧
    MainWindow.timer_active win'' = false.
Proof.
  apply (session_trace Bench.library 3 Bench.started _ []
           [ryzen_init_call; ryzen_get_system_info_call]).
  - reflexivity.
  - vm_compute. reflexivity.
Defined.

End OnTheBench.
